(** * RobloxFormatting: the two Blender automation scripts

    [src/bpyauto.py] prepares one mesh for Roblox (scale bake, decimation,
    UV unwrap, material, rigging, cage duplication, FBX export) and
    [src/glbtoobj.py] converts a folder of GLB files to OBJ.  Both are
    straight-line call sequences against Blender's [bpy] API and Python's
    [os] module.  The scripts are embedded as programs of a state and
    exception monad over an explicit scene; every [bpy] call of the source is
    one [host] call of the embedding, in the order of the source. *)

From Stdlib Require Import Ascii String QArith.
From stdpp Require Import gmap strings list fin_maps.

Open Scope string_scope.

(** ** Python [str] methods used by the scripts *)

Module PyStr.

Definition slash : ascii := "/"%char.
Definition dot : ascii := "."%char.

Definition chars (s : string) : list ascii := list_ascii_of_string s.
Definition str (l : list ascii) : string := string_of_list_ascii l.

Definition is_char (c d : ascii) : bool := Ascii.eqb c d.

(** [c.lower()] on one character: the ASCII upper-case letters move down,
    everything else stays. *)
Definition lower_char (c : ascii) : ascii :=
  let n := nat_of_ascii c in
  if (65 <=? n)%nat && (n <=? 90)%nat then ascii_of_nat (n + 32) else c.

(** [s.lower()] *)
Definition lower (s : string) : string := str (map lower_char (chars s)).

Fixpoint prefix_chars (p l : list ascii) : bool :=
  match p, l with
  | [], _ => true
  | _ :: _, [] => false
  | a :: p', b :: l' => is_char a b && prefix_chars p' l'
  end.

(** [s.startswith(p)] *)
Definition startswith (s p : string) : bool := prefix_chars (chars p) (chars s).

(** [s.endswith(p)] *)
Definition endswith (s p : string) : bool :=
  prefix_chars (rev (chars p)) (rev (chars s)).

Fixpoint drop_while (f : ascii -> bool) (l : list ascii) : list ascii :=
  match l with
  | [] => []
  | c :: l' => if f c then drop_while f l' else l
  end.

(** [s.rstrip(c)] *)
Definition rstrip (c : ascii) (l : list ascii) : list ascii :=
  rev (drop_while (is_char c) (rev l)).

(** [s.rfind(c)]: the index of the last [c], [None] for Python's -1. *)
Fixpoint rfind (c : ascii) (l : list ascii) : option nat :=
  match l with
  | [] => None
  | d :: l' =>
      match rfind c l' with
      | Some i => Some (S i)
      | None => if is_char c d then Some 0%nat else None
      end
  end.

(** [s.split(c)] on characters: the pieces between the separators. *)
Fixpoint split_on (c : ascii) (l : list ascii) : list (list ascii) :=
  match l with
  | [] => [[]]
  | d :: l' =>
      if is_char c d then [] :: split_on c l'
      else match split_on c l' with
           | [] => [[d]]
           | p :: ps => (d :: p) :: ps
           end
  end.

(** The truth value Python gives a string in [if s:] and [not s]. *)
Definition truthy (s : string) : bool :=
  match s with
  | EmptyString => false
  | String _ _ => true
  end.

End PyStr.

(** ** [os.path] on a POSIX host ([posixpath.py], [genericpath.py]) *)

Module posixpath.
Import PyStr.

(** [i = p.rfind('/') + 1; head = p[:i]] and then, when [head] is not
    empty and not all slashes, [head.rstrip('/')]. *)
Definition dirname (p : string) : string :=
  let l := chars p in
  let i := match rfind slash l with Some k => S k | None => 0%nat end in
  let head := take i l in
  if negb (bool_decide (head = [])) && negb (forallb (is_char slash) head)
  then str (rstrip slash head)
  else str head.

(** [os.path.basename(p)]: [p[i:]] for the same [i]. *)
Definition basename (p : string) : string :=
  let l := chars p in
  let i := match rfind slash l with Some k => S k | None => 0%nat end in
  str (drop i l).

(** [os.path.join(a, b)] with two arguments. *)
Definition join (a b : string) : string :=
  if startswith b "/" then b
  else if negb (truthy a) || endswith a "/" then a +:+ b
  else a +:+ "/" +:+ b.

(** [genericpath._splitext(p, '/', None, '.')]: the extension starts at the
    last dot of the last component, unless only dots precede it there. *)
Definition splitext (p : string) : string * string :=
  let l := chars p in
  let filenameIndex := match rfind slash l with Some k => S k | None => 0%nat end in
  match rfind dot l with
  | Some dotIndex =>
      if (filenameIndex <=? dotIndex)%nat
         && negb (forallb (is_char dot) (take (dotIndex - filenameIndex) (drop filenameIndex l)))
      then (str (take dotIndex l), str (drop dotIndex l))
      else (p, "")
  | None => (p, "")
  end.

(** The components of a path, and whether it starts at the root. *)
Definition components (p : string) : list string := map str (split_on slash (chars p)).
Definition isabs (p : string) : bool := startswith p "/".

End posixpath.

(** ** The scene: what [bpy.data] and [bpy.context] hold

  Blender keys every collection of [bpy.data] by a unique name, so the
  collections are finite maps from names, and a Python reference to an
  object ([obj], [rig], [cage]) is the name the object has at that moment. *)

Module Bpy.

(** Python floats as far as the scripts compare them: a finite float is the
    rational it denotes. *)
Inductive pyfloat :=
| Finite (q : Q)
| PosInf
| NegInf
| NaN.

(** [a <= b] on floats; every comparison with NaN is false. *)
Definition fle (a b : pyfloat) : bool :=
  match a, b with
  | NaN, _ | _, NaN => false
  | NegInf, _ => true
  | _, PosInf => true
  | Finite x, Finite y => Qle_bool x y
  | _, _ => false
  end.

Definition vec3 : Type := Q * Q * Q.

(** [obj.type] *)
Inductive obj_type := MESH | ARMATURE | OTHER (kind : string).

(** [bpy.context.mode], as far as [mode_set] is used. *)
Inductive mode_t := OBJECT | EDIT | WEIGHT_PAINT.

(** [action] of the [select_all] operators. *)
Inductive action := SELECT | DESELECT.

Inductive modifier :=
| DecimateMod (ratio : pyfloat)
| ArmatureMod (target : string)
| OtherMod (kind : string).

(** The destructive edits a mesh has received, newest first.  The geometry
    itself belongs to Blender; [whole] says that every vertex was selected
    when an edit-mode operator ran, so that it acted on the entire mesh. *)
Inductive mesh_edit :=
| ScaleApplied (s : vec3)
| Applied (m : modifier)
| SmartProjected (whole : bool)
| Unwrapped (whole : bool)
| Resized (value : vec3) (whole : bool).

Record mesh := Mesh {
  mesh_name : string;              (* obj.data.name *)
  nverts : nat;                    (* len(obj.data.vertices) *)
  verts_selected : bool;           (* every vertex is selected *)
  edits : list mesh_edit;
  mesh_materials : list string     (* obj.data.materials *)
}.

Inductive obdata :=
| MeshData (m : mesh)
| ArmatureData (bones : list string)     (* rig.data.bones, by name *)
| OtherData (kind : string).

Record object := Object {
  data : obdata;                                 (* obj.data *)
  scale : vec3;                                  (* obj.scale *)
  select : bool;                                 (* obj.select_get() *)
  parent : option string;                        (* obj.parent *)
  parent_type : string;                          (* obj.parent_type *)
  modifiers : list (string * modifier);          (* obj.modifiers *)
  vertex_groups : gmap string (gmap nat Q)       (* obj.vertex_groups: index to weight *)
}.

Definition type (o : object) : obj_type :=
  match data o with
  | MeshData _ => MESH
  | ArmatureData _ => ARMATURE
  | OtherData k => OTHER k
  end.

Inductive node :=
| BsdfPrincipled
| OutputMaterial
| TexImage (image : option string)
| OtherNode (kind : string).

(** A link of a node tree: output socket of one node to input socket of
    another. *)
Record link := Link {
  from_node : string; from_socket : string;
  to_node : string; to_socket : string
}.

Record material := Material {
  use_nodes : bool;
  node_tree : option (list (string * node) * list link)
}.

(** The files that matter: directories, and files that either hold a scene
    some Blender codec can read ([Some objs]) or anything else. *)
Inductive fsnode :=
| Dir
| File (scene : option (gmap string object)).

(** ** The calls into the host, as the scripts make them *)

Inductive call :=
| SetActive (o : string)                           (* view_layer.objects.active = o *)
| ModeSet (m : mode_t)                             (* ops.object.mode_set *)
| TransformApply (location rotation scale : bool)  (* ops.object.transform_apply *)
| ModifiersNew (o name type : string)              (* o.modifiers.new *)
| SetRatio (o modifier : string) (r : pyfloat)     (* mod.ratio = r *)
| ModifierApply (modifier : string)                (* ops.object.modifier_apply *)
| MeshSelectAll (a : action)                       (* ops.mesh.select_all *)
| SmartProject                                     (* ops.uv.smart_project *)
| Unwrap                                           (* ops.uv.unwrap *)
| MaterialsNew (name : string)                     (* data.materials.new *)
| SetUseNodes (mat : string) (b : bool)            (* mat.use_nodes = b *)
| NodesNew (mat type : string)                     (* mat.node_tree.nodes.new *)
| ImagesLoad (path : string)                       (* data.images.load *)
| SetNodeImage (mat nd image : string)             (* node.image = image *)
| LinksNew (mat : string) (l : link)               (* mat.node_tree.links.new *)
| SetMaterialSlot (o : string) (i : nat) (mat : string)   (* o.data.materials[i] = mat *)
| AppendMaterial (o mat : string)                  (* o.data.materials.append *)
| SetParent (o p : string)                         (* o.parent = p *)
| SetParentType (o t : string)                     (* o.parent_type = t *)
| ObjectSelectAll (a : action)                     (* ops.object.select_all *)
| SelectSet (o : string) (b : bool)                (* o.select_set *)
| ParentSet (type : string) (keep_transform : bool)   (* ops.object.parent_set *)
| VertexGroupsNew (o name : string)                (* o.vertex_groups.new *)
| VertexGroupAdd (o group : string) (count : nat) (weight : Q) (type : string)
                                                   (* vg.add(range(count), weight, type) *)
| Duplicate                                        (* ops.object.duplicate *)
| SetName (o name : string)                        (* o.name = name *)
| SetDataName (o name : string)                    (* o.data.name = name *)
| Resize (value : vec3)                            (* ops.transform.resize *)
| Makedirs (path : string)                         (* os.makedirs *)
| ExportFbx (filepath : string) (options : list (string * string))
| Delete (use_global : bool)                       (* ops.object.delete *)
| ImportGltf (filepath : string)                   (* ops.import_scene.gltf *)
| ExportObj (filepath : string) (options : list (string * string)).

(** The exceptions that reach the scripts, all subclasses of [Exception];
    each carries what [str(e)] prints. *)
Inductive exn :=
| ValueError (msg : string)
| FileNotFoundError (msg : string)
| KeyError (msg : string)
| RuntimeError (msg : string)
| TypeError (msg : string)
| IndexError (msg : string)
| AttributeError (msg : string)
| OSError (msg : string).

Definition str_of (e : exn) : string :=
  match e with
  | ValueError m | FileNotFoundError m | KeyError m
  | RuntimeError m | TypeError m | IndexError m | AttributeError m | OSError m => m
  end.

(** What became of a call: it ran, or it raised. *)
Inductive event :=
| Done (c : call)
| Raised (c : call) (e : exn).

Record world := World {
  objects : gmap string object;        (* bpy.data.objects *)
  active : option string;              (* bpy.context.view_layer.objects.active *)
  mode : mode_t;                       (* bpy.context.mode *)
  materials : gmap string material;    (* bpy.data.materials *)
  images : gmap string string;         (* bpy.data.images, name to file path *)
  filepath : string;                   (* bpy.data.filepath *)
  cwd : list string;                   (* os.getcwd(), as components *)
  fs : gmap (list string) fsnode;      (* the file system, by absolute components *)
  stdout : list string;                (* the lines printed so far *)
  history : list event                 (* the host calls so far, oldest first *)
}.

(** What the host decides on its own: whether an operator refuses or fails
    in a given state, and what applying a modifier does to the vertex count
    and to the weights of a vertex group. *)
Class Host := {
  host_error : call -> world -> option exn;
  modifier_verts : modifier -> nat -> nat;
  modifier_weights : modifier -> gmap nat Q -> gmap nat Q
}.

(** ** Unique names

    A name given to a data-block that another one already holds is replaced
    by the first free one among [stem.001], [stem.002], ... *)

Definition is_digit (c : ascii) : bool :=
  let n := nat_of_ascii c in (48 <=? n)%nat && (n <=? 57)%nat.

Definition digit (n : nat) : ascii := ascii_of_nat (48 + n mod 10).

(** [".%03d" % n] *)
Definition number (n : nat) : string :=
  PyStr.str [PyStr.dot; digit (n / 100); digit (n / 10); digit n].

(** The name without a numeric suffix: ["Cube.001"] gives ["Cube"]. *)
Definition stem (s : string) : string :=
  let r := rev (PyStr.chars s) in
  let rest := PyStr.drop_while is_digit r in
  match rest with
  | c :: rest' =>
      if PyStr.is_char PyStr.dot c && negb (length rest =? length r)%nat
      then PyStr.str (rev rest') else s
  | [] => s
  end.

Fixpoint find_free (used : gset string) (base : string) (n fuel : nat) : option string :=
  match fuel with
  | O => None
  | S fuel' =>
      let c := base +:+ number n in
      if bool_decide (c ∈ used) then find_free used base (S n) fuel' else Some c
  end.

Definition unique_name (used : gset string) (name : string) : string :=
  if bool_decide (name ∈ used) then
    match find_free used (stem name) 1 999 with
    | Some c => c
    | None => fresh used
    end
  else name.

(** ** Record updates *)

Definition set_mesh_name (x : string) (m : mesh) : mesh :=
  Mesh x (nverts m) (verts_selected m) (edits m) (mesh_materials m).
Definition set_nverts (x : nat) (m : mesh) : mesh :=
  Mesh (mesh_name m) x (verts_selected m) (edits m) (mesh_materials m).
Definition set_verts_selected (x : bool) (m : mesh) : mesh :=
  Mesh (mesh_name m) (nverts m) x (edits m) (mesh_materials m).
Definition set_edits (x : list mesh_edit) (m : mesh) : mesh :=
  Mesh (mesh_name m) (nverts m) (verts_selected m) x (mesh_materials m).
Definition set_mesh_materials (x : list string) (m : mesh) : mesh :=
  Mesh (mesh_name m) (nverts m) (verts_selected m) (edits m) x.

Definition add_edit (e : mesh_edit) (m : mesh) : mesh := set_edits (e :: edits m) m.

Definition set_data (x : obdata) (o : object) : object :=
  Object x (scale o) (select o) (parent o) (parent_type o) (modifiers o) (vertex_groups o).
Definition set_scale (x : vec3) (o : object) : object :=
  Object (data o) x (select o) (parent o) (parent_type o) (modifiers o) (vertex_groups o).
Definition set_select (x : bool) (o : object) : object :=
  Object (data o) (scale o) x (parent o) (parent_type o) (modifiers o) (vertex_groups o).
Definition set_parent (x : option string) (o : object) : object :=
  Object (data o) (scale o) (select o) x (parent_type o) (modifiers o) (vertex_groups o).
Definition set_parent_type (x : string) (o : object) : object :=
  Object (data o) (scale o) (select o) (parent o) x (modifiers o) (vertex_groups o).
Definition set_modifiers (x : list (string * modifier)) (o : object) : object :=
  Object (data o) (scale o) (select o) (parent o) (parent_type o) x (vertex_groups o).
Definition set_vertex_groups (x : gmap string (gmap nat Q)) (o : object) : object :=
  Object (data o) (scale o) (select o) (parent o) (parent_type o) (modifiers o) x.

(** Change the mesh of an object that has one. *)
Definition on_mesh (f : mesh -> mesh) (o : object) : object :=
  match data o with
  | MeshData m => set_data (MeshData (f m)) o
  | _ => o
  end.

Definition set_objects (x : gmap string object) (w : world) : world :=
  World x (active w) (mode w) (materials w) (images w) (filepath w) (cwd w) (fs w)
        (stdout w) (history w).
Definition set_active (x : option string) (w : world) : world :=
  World (objects w) x (mode w) (materials w) (images w) (filepath w) (cwd w) (fs w)
        (stdout w) (history w).
Definition set_mode (x : mode_t) (w : world) : world :=
  World (objects w) (active w) x (materials w) (images w) (filepath w) (cwd w) (fs w)
        (stdout w) (history w).
Definition set_materials (x : gmap string material) (w : world) : world :=
  World (objects w) (active w) (mode w) x (images w) (filepath w) (cwd w) (fs w)
        (stdout w) (history w).
Definition set_images (x : gmap string string) (w : world) : world :=
  World (objects w) (active w) (mode w) (materials w) x (filepath w) (cwd w) (fs w)
        (stdout w) (history w).
Definition set_fs (x : gmap (list string) fsnode) (w : world) : world :=
  World (objects w) (active w) (mode w) (materials w) (images w) (filepath w) (cwd w) x
        (stdout w) (history w).
Definition set_stdout (x : list string) (w : world) : world :=
  World (objects w) (active w) (mode w) (materials w) (images w) (filepath w) (cwd w) (fs w)
        x (history w).
Definition set_history (x : list event) (w : world) : world :=
  World (objects w) (active w) (mode w) (materials w) (images w) (filepath w) (cwd w) (fs w)
        (stdout w) x.

(** ** The file system behind [os.path.exists], [isdir], [listdir], [makedirs]

    A path is resolved one component at a time from the root or from the
    working directory; every step needs the place reached so far to be a
    directory.  There are no symbolic links. *)

Definition node_at (f : gmap (list string) fsnode) (k : list string) : option fsnode :=
  match k with
  | [] => Some Dir
  | _ :: _ => f !! k
  end.

Definition step (cur : list string) (c : string) : list string :=
  if String.eqb c "" || String.eqb c "." then cur
  else if String.eqb c ".." then removelast cur
  else cur ++ [c].

Fixpoint walk (f : gmap (list string) fsnode) (cur : list string) (cs : list string)
  : option (list string) :=
  match cs with
  | [] => Some cur
  | c :: cs' =>
      match node_at f cur with
      | Some Dir => walk f (step cur c) cs'
      | _ => None
      end
  end.

Definition start (w : world) (p : string) : list string :=
  if posixpath.isabs p then [] else cwd w.

(** Where the path leads, when the way to it exists; the empty path leads
    nowhere. *)
Definition locate (w : world) (p : string) : option (list string) :=
  if PyStr.truthy p then walk (fs w) (start w p) (posixpath.components p) else None.

Definition stat (w : world) (p : string) : option fsnode :=
  match locate w p with
  | Some k => node_at (fs w) k
  | None => None
  end.

(** [os.path.exists(p)] *)
Definition path_exists (w : world) (p : string) : bool :=
  match stat w p with Some _ => true | None => false end.

(** [os.path.isdir(p)] *)
Definition isdir (w : world) (p : string) : bool :=
  match stat w p with Some Dir => true | _ => false end.

(** [os.listdir(p)]: the names directly below [p], in the order the file
    system gives them. *)
Definition child_of (k key : list string) : option string :=
  if bool_decide (removelast key = k) then last key else None.

Definition listdir (w : world) (p : string) : exn + list string :=
  match locate w p with
  | Some k =>
      match node_at (fs w) k with
      | Some Dir => inr (omap (child_of k) (map_to_list (fs w)).*1)
      | Some (File _) => inl (OSError ("Not a directory: " +:+ p))
      | None => inl (OSError ("No such file or directory: " +:+ p))
      end
  | None => inl (OSError ("No such file or directory: " +:+ p))
  end.

(** [os.makedirs(p)]: create every missing directory on the way; a file in
    the way, or nothing left to create, is an error. *)
Fixpoint mkdirs (f : gmap (list string) fsnode) (cur : list string) (cs : list string)
    (created : bool) : exn + gmap (list string) fsnode :=
  match cs with
  | [] => if created then inr f else inl (OSError "File exists")
  | c :: cs' =>
      let k := step cur c in
      match node_at f k with
      | None => mkdirs (<[k:=Dir]> f) k cs' true
      | Some Dir => mkdirs f k cs' created
      | Some (File _) => inl (OSError "Not a directory")
      end
  end.

Definition makedirs (p : string) (w : world) : exn + world :=
  if PyStr.truthy p then
    match node_at (fs w) (start w p) with
    | Some Dir =>
        match mkdirs (fs w) (start w p) (posixpath.components p) false with
        | inr f => inr (set_fs f w)
        | inl e => inl e
        end
    | _ => inl (OSError "No such file or directory")
    end
  else inl (OSError "No such file or directory: ''").

(** Writing a file at [p]: the directory must be there, and [p] must not be
    one. *)
Definition write_file (p : string) (content : option (gmap string object)) (w : world)
  : exn + world :=
  match locate w p with
  | Some k =>
      match node_at (fs w) k with
      | Some Dir => inl (OSError ("Is a directory: " +:+ p))
      | _ => inr (set_fs (<[k:=File content]> (fs w)) w)
      end
  | None => inl (OSError ("No such file or directory: " +:+ p))
  end.

(** ** What each call does to the scene *)

Definition poll_failed (op : string) : exn :=
  RuntimeError ("Operator bpy.ops." +:+ op +:+ ".poll() failed, context is incorrect").

(** [bpy.context.active_object] with its data-block. *)
Definition active_object (w : world) : option (string * object) :=
  match active w with
  | Some a => match objects w !! a with Some o => Some (a, o) | None => None end
  | None => None
  end.

Definition update_object (k : string) (f : object -> object) (w : world) : world :=
  set_objects (alter f k (objects w)) w.

Definition is_select (a : action) : bool :=
  match a with SELECT => true | DESELECT => false end.

Definition is_mesh (o : object) : bool :=
  match data o with MeshData _ => true | _ => false end.

Definition is_armature (o : object) : bool :=
  match data o with ArmatureData _ => true | _ => false end.

Definition mode_is (m : mode_t) (w : world) : bool :=
  match m, mode w with
  | OBJECT, OBJECT | EDIT, EDIT | WEIGHT_PAINT, WEIGHT_PAINT => true
  | _, _ => false
  end.

Definition one : vec3 := (1, 1, 1)%Q.

Definition scale_by (v s : vec3) : vec3 :=
  let '(a, b, c) := v in let '(x, y, z) := s in
  (Qred (a * x), Qred (b * y), Qred (c * z))%Q.

Definition clamp01 (q : Q) : Q :=
  if Qle_bool q 0 then 0%Q else if Qle_bool 1 q then 1%Q else q.

Definition clamp_ratio (r : pyfloat) : pyfloat :=
  match r with
  | Finite q => Finite (clamp01 q)
  | PosInf => Finite 1
  | NegInf => Finite 0
  | NaN => NaN
  end.

Definition names_of {A} (l : list (string * A)) : gset string := list_to_set l.*1.

Fixpoint find_named {A} (n : string) (l : list (string * A)) : option A :=
  match l with
  | [] => None
  | (k, x) :: l' => if String.eqb k n then Some x else find_named n l'
  end.

Fixpoint remove_named {A} (n : string) (l : list (string * A)) : list (string * A) :=
  match l with
  | [] => []
  | (k, x) :: l' => if String.eqb k n then l' else (k, x) :: remove_named n l'
  end.

Definition change_named {A} (n : string) (f : A -> A) (l : list (string * A))
  : list (string * A) :=
  map (fun kx => if String.eqb kx.1 n then (kx.1, f kx.2) else kx) l.

(** [transform_apply(scale=True)] on one object: the scale goes into the
    mesh and becomes 1. *)
Definition bake_scale (o : object) : object :=
  set_scale one (on_mesh (add_edit (ScaleApplied (scale o))) o).

(** What [transform_apply(scale=True)] leaves of the objects: it acts on the
    selected ones. *)
Definition baked (objs : gmap string object) : gmap string object :=
  (fun o => if select o then bake_scale o else o) <$> objs.

Definition default_modifier (type : string) : modifier :=
  if String.eqb type "DECIMATE" then DecimateMod (Finite 1)
  else if String.eqb type "ARMATURE" then ArmatureMod ""
  else OtherMod type.

Definition set_ratio (r : pyfloat) (m : modifier) : modifier :=
  match m with
  | DecimateMod _ => DecimateMod (clamp_ratio r)
  | _ => m
  end.

(** The node tree a material gets when nodes are first switched on. *)
Definition default_tree : list (string * node) * list link :=
  ([("Principled BSDF", BsdfPrincipled); ("Material Output", OutputMaterial)],
   [Link "Principled BSDF" "BSDF" "Material Output" "Surface"]).

Definition switch_nodes (b : bool) (m : material) : material :=
  Material b (match node_tree m with
              | None => if b then Some default_tree else None
              | Some t => Some t
              end).

Definition new_node (type : string) : string * node :=
  if String.eqb type "ShaderNodeTexImage" then ("Image Texture", TexImage None)
  else (type, OtherNode type).

Definition add_node (type : string) (m : material) : material :=
  match node_tree m with
  | Some (ns, ls) =>
      let '(label, n) := new_node type in
      Material (use_nodes m) (Some ((ns ++ [(unique_name (names_of ns) label, n)])%list, ls))
  | None => m
  end.

Definition set_image (nd image : string) (m : material) : material :=
  match node_tree m with
  | Some (ns, ls) =>
      Material (use_nodes m)
        (Some (change_named nd (fun n => match n with
                                         | TexImage _ => TexImage (Some image)
                                         | _ => n
                                         end) ns, ls))
  | None => m
  end.

Definition same_input (a b : link) : bool :=
  String.eqb (to_node a) (to_node b) && String.eqb (to_socket a) (to_socket b).

(** An input socket takes one link: a new one replaces the old. *)
Definition add_link (l : link) (m : material) : material :=
  match node_tree m with
  | Some (ns, ls) =>
      Material (use_nodes m) (Some (ns, l :: filter (fun x => same_input l x = false) ls))
  | None => m
  end.

Definition deformed_by (a : string) (o : object) : bool :=
  existsb (fun km => match km.2 with
                     | ArmatureMod t => String.eqb t a
                     | _ => false
                     end) (modifiers o).

(** [parent_set] on one selected child of the active object [a]. *)
Definition adopt (type : string) (a : string) (pa : object) (o : object) : object :=
  if String.eqb type "ARMATURE" then
    if is_armature pa then
      let o' := set_parent_type "OBJECT" (set_parent (Some a) o) in
      if is_mesh o && negb (deformed_by a o)
      then set_modifiers
             (modifiers o ++ [(unique_name (names_of (modifiers o)) "Armature", ArmatureMod a)])%list o'
      else o'
    else o
  else set_parent_type "OBJECT" (set_parent (Some a) o).

(** [vg.add(range(count), weight, type)] on the weights of one group. *)
Definition assign (type : string) (weight : Q) (old : option Q) : Q :=
  let o := match old with Some x => x | None => 0%Q end in
  if String.eqb type "ADD" then clamp01 (Qred (o + weight))
  else if String.eqb type "SUBTRACT" then clamp01 (Qred (o - weight))
  else clamp01 weight.

Definition add_weights (count : nat) (weight : Q) (type : string) (g : gmap nat Q)
  : gmap nat Q :=
  foldr (fun i acc => <[i := assign type weight (g !! i)]> acc) g (seq 0 count).

Definition mesh_names (objs : gmap string object) : gset string :=
  map_fold (fun _ o acc => match data o with
                           | MeshData m => {[mesh_name m]} ∪ acc
                           | _ => acc
                           end) ∅ objs.

(** A copy of an object as [duplicate] and the importers add it: under a free
    name, with a mesh of its own, selected. *)
Definition add_copy (k : string) (o : object)
    (acc : gmap string object * gmap string string)
  : gmap string object * gmap string string :=
  let k' := unique_name (dom acc.1) k in
  let o' := on_mesh (fun m => set_mesh_name (unique_name (mesh_names acc.1) (mesh_name m)) m)
                    (set_select true o) in
  (<[k' := o']> acc.1, <[k := k']> acc.2).

Definition selected (objs : gmap string object) : gmap string object :=
  filter (fun ko => select ko.2 = true) objs.

Definition deselect_all (objs : gmap string object) : gmap string object :=
  set_select false <$> objs.

(** References by name follow a rename. *)
Definition retarget (old new : string) (o : object) : object :=
  set_modifiers
    (map (fun km => match km.2 with
                    | ArmatureMod t => if String.eqb t old then (km.1, ArmatureMod new) else km
                    | _ => km
                    end) (modifiers o))
    (match parent o with
     | Some p => if String.eqb p old then set_parent (Some new) o else o
     | None => o
     end).

Definition rename (o new : string) (objs : gmap string object) : gmap string object :=
  match objs !! o with
  | Some ob =>
      let rest := delete o objs in
      let k := unique_name (dom rest) new in
      <[k := ob]> (retarget o k <$> rest)
  | None => objs
  end.

Definition option_is (key value : string) (options : list (string * string)) : bool :=
  match find_named key options with
  | Some v => String.eqb v value
  | None => false
  end.

(** What an exporter writes: the selection when [use_selection] is on. *)
Definition exported (options : list (string * string)) (w : world) : gmap string object :=
  if option_is "use_selection" "True" options then selected (objects w) else objects w.

Section Effects.
Context {blender : Host}.

(** [modifier_apply]: the modifier leaves the stack and its result becomes
    the mesh; vertex count and weights are what the host makes of them. *)
Definition apply_modifier (n : string) (m : modifier) (o : object) : object :=
  set_modifiers (remove_named n (modifiers o))
    (set_vertex_groups (modifier_weights m <$> vertex_groups o)
       (on_mesh (fun me => add_edit (Applied m) (set_nverts (modifier_verts m (nverts me)) me))
                o)).

(** Operators of the 3D viewport that only run in object mode. *)
Definition object_mode (op : string) (f : world -> world) (w : world) : exn + world :=
  if mode_is OBJECT w then inr (f w) else inl (poll_failed op).

(** Operators on the mesh being edited: the active object, in edit mode. *)
Definition edit_mesh (op : string) (f : mesh -> mesh) (w : world) : exn + world :=
  match active_object w with
  | Some (a, o) =>
      if mode_is EDIT w && is_mesh o then inr (update_object a (on_mesh f) w)
      else inl (poll_failed op)
  | None => inl (poll_failed op)
  end.

(** [duplicate] copies every selected object; the copies are selected, the
    originals are not, and the copy of the active object becomes active. *)
Definition duplicate (w : world) : world :=
  let r := map_fold add_copy (deselect_all (objects w), ∅) (selected (objects w)) in
  set_active (match active w with
              | Some a => Some (default a (r.2 !! a))
              | None => None
              end) (set_objects r.1 w).

(** An importer adds the objects of the file, selected, under free names. *)
Definition import_scene (objs : gmap string object) (w : world) : world :=
  set_objects (map_fold add_copy (deselect_all (objects w), ∅) objs).1 w.

Definition delete_selected (w : world) : world :=
  set_active (match active_object w with
              | Some (a, o) => if select o then None else Some a
              | None => active w
              end)
    (set_objects (filter (fun ko => select ko.2 = false) (objects w)) w).

Definition effect (c : call) (w : world) : exn + world :=
  match c with
  | SetActive o => inr (set_active (Some o) w)
  | ModeSet m =>
      match active_object w with
      | Some (_, o) =>
          match m, data o with
          | OBJECT, _ | EDIT, MeshData _ | EDIT, ArmatureData _ | WEIGHT_PAINT, MeshData _ =>
              inr (set_mode m w)
          | _, _ => inl (TypeError "Converting py args to operator properties: enum not found")
          end
      | None => inl (poll_failed "object.mode_set")
      end
  | TransformApply _ _ sc =>
      object_mode "object.transform_apply"
        (fun w => if sc then set_objects (baked (objects w)) w else w) w
  | ModifiersNew o name ty =>
      inr (update_object o
             (fun ob => set_modifiers
                          (modifiers ob ++ [(unique_name (names_of (modifiers ob)) name,
                                             default_modifier ty)])%list ob) w)
  | SetRatio o n r =>
      inr (update_object o
             (fun ob => set_modifiers (change_named n (set_ratio r) (modifiers ob)) ob) w)
  | ModifierApply n =>
      match active_object w with
      | Some (a, o) =>
          if mode_is EDIT w
          then inl (RuntimeError "Error: Modifiers cannot be applied in edit mode")
          else match find_named n (modifiers o) with
               | Some m => inr (update_object a (apply_modifier n m) w)
               | None => inl (RuntimeError ("Error: Modifier '" +:+ n +:+ "' not found"))
               end
      | None => inl (poll_failed "object.modifier_apply")
      end
  | MeshSelectAll a => edit_mesh "mesh.select_all" (set_verts_selected (is_select a)) w
  | SmartProject =>
      edit_mesh "uv.smart_project"
        (fun me => add_edit (SmartProjected (verts_selected me)) me) w
  | Unwrap =>
      edit_mesh "uv.unwrap" (fun me => add_edit (Unwrapped (verts_selected me)) me) w
  | MaterialsNew name =>
      inr (set_materials (<[unique_name (dom (materials w)) name := Material false None]>
                            (materials w)) w)
  | SetUseNodes mat b => inr (set_materials (alter (switch_nodes b) mat (materials w)) w)
  | NodesNew mat ty => inr (set_materials (alter (add_node ty) mat (materials w)) w)
  | ImagesLoad path =>
      match stat w path with
      | Some (File _) =>
          inr (set_images (<[unique_name (dom (images w)) (posixpath.basename path) := path]>
                             (images w)) w)
      | _ => inl (RuntimeError ("Error: Cannot read '" +:+ path +:+ "'"))
      end
  | SetNodeImage mat nd image =>
      inr (set_materials (alter (set_image nd image) mat (materials w)) w)
  | LinksNew mat l => inr (set_materials (alter (add_link l) mat (materials w)) w)
  | SetMaterialSlot o i mat =>
      match objects w !! o with
      | Some ob =>
          match data ob with
          | MeshData me =>
              if (i <? length (mesh_materials me))%nat
              then inr (update_object o
                          (on_mesh (fun me => set_mesh_materials (<[i:=mat]> (mesh_materials me)) me))
                          w)
              else inl (IndexError "bpy_prop_collection[index] = value: index out of range")
          | _ => inr w
          end
      | None => inr w
      end
  | AppendMaterial o mat =>
      inr (update_object o
             (on_mesh (fun me => set_mesh_materials (mesh_materials me ++ [mat])%list me)) w)
  | SetParent o p => inr (update_object o (set_parent (Some p)) w)
  | SetParentType o t => inr (update_object o (set_parent_type t) w)
  | ObjectSelectAll a =>
      object_mode "object.select_all"
        (fun w => set_objects (set_select (is_select a) <$> objects w) w) w
  | SelectSet o b => inr (update_object o (set_select b) w)
  | ParentSet ty _ =>
      match active_object w with
      | Some (a, pa) =>
          inr (set_objects
                 (map_imap (fun k o => Some (if select o && negb (String.eqb k a)
                                             then adopt ty a pa o else o))
                           (objects w)) w)
      | None => inl (poll_failed "object.parent_set")
      end
  | VertexGroupsNew o name =>
      inr (update_object o
             (fun ob => set_vertex_groups
                          (<[unique_name (dom (vertex_groups ob)) name := ∅]> (vertex_groups ob))
                          ob) w)
  | VertexGroupAdd o g count weight ty =>
      if mode_is EDIT w
      then inl (RuntimeError "VertexGroup.add(): cannot be called while object is in edit mode")
      else inr (update_object o
                  (fun ob => set_vertex_groups
                               (alter (add_weights count weight ty) g (vertex_groups ob)) ob) w)
  | Duplicate => object_mode "object.duplicate" duplicate w
  | SetName o name => inr (set_active (match active w with
                                       | Some a =>
                                           if String.eqb a o
                                           then Some (unique_name (dom (delete o (objects w))) name)
                                           else Some a
                                       | None => None
                                       end)
                             (set_objects (rename o name (objects w)) w))
  | SetDataName o name =>
      inr (update_object o
             (on_mesh (set_mesh_name (unique_name (mesh_names (delete o (objects w))) name))) w)
  | Resize v =>
      match mode w with
      | EDIT =>
          edit_mesh "transform.resize" (fun me => add_edit (Resized v (verts_selected me)) me) w
      | OBJECT =>
          inr (set_objects ((fun o => if select o then set_scale (scale_by (scale o) v) o else o)
                              <$> objects w) w)
      | WEIGHT_PAINT => inr w
      end
  | Makedirs p => makedirs p w
  | ExportFbx p options => write_file p (Some (exported options w)) w
  | Delete _ => object_mode "object.delete" delete_selected w
  | ImportGltf p =>
      match stat w p with
      | Some (File (Some objs)) => inr (import_scene objs w)
      | _ => inl (RuntimeError ("Error: cannot import '" +:+ p +:+ "'"))
      end
  | ExportObj p options => write_file p (Some (exported options w)) w
  end.

(** ** The monad of the scripts: the scene is threaded through, an exception
    ends the sequence and keeps the scene as it was at that moment *)

Definition M (A : Type) : Type := world -> (exn + A) * world.

Definition ret {A} (a : A) : M A := fun w => (inr a, w).

Definition bind {A B} (m : M A) (k : A -> M B) : M B :=
  fun w => match m w with
           | (inr a, w') => k a w'
           | (inl e, w') => (inl e, w')
           end.

(** [raise e] *)
Definition raise {A} (e : exn) : M A := fun w => (inl e, w).

(** Reading the scene. *)
Definition gets {A} (f : world -> A) : M A := fun w => (inr (f w), w).

(** [print(s)] *)
Definition print (s : string) : M unit :=
  fun w => (inr tt, set_stdout (stdout w ++ [s])%list w).

(** [try: body except Exception as e: handler(e)] *)
Definition try_except {A} (body : M A) (handler : exn -> M A) : M A :=
  fun w => match body w with
           | (inl e, w') => handler e w'
           | (inr a, w') => (inr a, w')
           end.

Definition log (ev : event) (w : world) : world := set_history (history w ++ [ev])%list w.

(** One call into the host: it may refuse on its own account, fail for a
    reason the scene shows, or run; either way the call is on record. *)
Definition host (c : call) : M unit :=
  fun w => match host_error c w with
           | Some e => (inl e, log (Raised c e) w)
           | None =>
               match effect c w with
               | inl e => (inl e, log (Raised c e) w)
               | inr w' => (inr tt, log (Done c) w')
               end
           end.

(** [if b: m] *)
Definition when (b : bool) (m : M unit) : M unit := if b then m else ret tt.

(** [for x in l: body(x)] *)
Fixpoint for_each {A} (l : list A) (body : A -> M unit) : M unit :=
  match l with
  | [] => ret tt
  | x :: l' => bind (body x) (fun _ => for_each l' body)
  end.

(** A library call that reads the scene and may raise. *)
Definition lift {A} (f : world -> exn + A) : M A :=
  fun w => match f w with
           | inl e => (inl e, w)
           | inr a => (inr a, w)
           end.

(** *** Calls that hand back a reference

    The reference is the name the host settles on, computed from the scene
    the call sees. *)

(** [o.modifiers.new(name=name, type=ty)] *)
Definition modifiers_new (o name ty : string) : M string :=
  bind (gets (fun w => unique_name
                         (names_of (match objects w !! o with
                                    | Some ob => modifiers ob
                                    | None => []
                                    end)) name))
       (fun n => bind (host (ModifiersNew o name ty)) (fun _ => ret n)).

(** [bpy.data.materials.new(name=name)] *)
Definition materials_new (name : string) : M string :=
  bind (gets (fun w => unique_name (dom (materials w)) name))
       (fun n => bind (host (MaterialsNew name)) (fun _ => ret n)).

(** [mat.node_tree.nodes[key]] *)
Definition nodes_getitem (mat key : string) : M string :=
  lift (fun w =>
          match materials w !! mat with
          | Some m =>
              match node_tree m with
              | Some (ns, _) =>
                  match find_named key ns with
                  | Some _ => inr key
                  | None => inl (KeyError ("bpy_prop_collection[key]: key '" +:+ key
                                           +:+ "' not found"))
                  end
              | None => inl (AttributeError "'NoneType' object has no attribute 'nodes'")
              end
          | None => inl (AttributeError "'NoneType' object has no attribute 'node_tree'")
          end).

(** [mat.node_tree.nodes.new(ty)] *)
Definition nodes_new (mat ty : string) : M string :=
  bind (gets (fun w => match materials w !! mat with
                       | Some m =>
                           match node_tree m with
                           | Some (ns, _) => unique_name (names_of ns) (new_node ty).1
                           | None => (new_node ty).1
                           end
                       | None => (new_node ty).1
                       end))
       (fun n => bind (host (NodesNew mat ty)) (fun _ => ret n)).

(** [bpy.data.images.load(path)] *)
Definition images_load (path : string) : M string :=
  bind (gets (fun w => unique_name (dom (images w)) (posixpath.basename path)))
       (fun n => bind (host (ImagesLoad path)) (fun _ => ret n)).

(** [o.vertex_groups.get(name)] *)
Definition vertex_groups_get (o name : string) : M (option string) :=
  gets (fun w => match objects w !! o with
                 | Some ob => match vertex_groups ob !! name with
                              | Some _ => Some name
                              | None => None
                              end
                 | None => None
                 end).

(** [o.vertex_groups.new(name=name)] *)
Definition vertex_groups_new (o name : string) : M string :=
  bind (gets (fun w => unique_name (match objects w !! o with
                                    | Some ob => dom (vertex_groups ob)
                                    | None => ∅
                                    end) name))
       (fun n => bind (host (VertexGroupsNew o name)) (fun _ => ret n)).

(** [len(o.data.vertices)] *)
Definition len_vertices (o : string) : M nat :=
  gets (fun w => match objects w !! o with
                 | Some ob => match data ob with MeshData me => nverts me | _ => 0%nat end
                 | None => 0%nat
                 end).

(** [len(o.data.materials)] *)
Definition len_materials (o : string) : M nat :=
  gets (fun w => match objects w !! o with
                 | Some ob => match data ob with
                              | MeshData me => length (mesh_materials me)
                              | _ => 0%nat
                              end
                 | None => 0%nat
                 end).

(** [o.name = name]; the reference follows the object to its new name. *)
Definition set_name (o name : string) : M string :=
  bind (gets (fun w => unique_name (dom (delete o (objects w))) name))
       (fun n => bind (host (SetName o name)) (fun _ => ret n)).

(** [bpy.context.active_object], for a use that dereferences it. *)
Definition context_active_object : M string :=
  lift (fun w => match active_object w with
                 | Some (a, _) => inr a
                 | None => inl (AttributeError "'NoneType' object has no attribute 'name'")
                 end).

(** [bpy.data.objects[key]] *)
Definition objects_getitem (key : string) : M string :=
  lift (fun w => match objects w !! key with
                 | Some _ => inr key
                 | None => inl (KeyError ("bpy_prop_collection[key]: key '" +:+ key
                                          +:+ "' not found"))
                 end).

(** [os.listdir(p)] *)
Definition os_listdir (p : string) : M (list string) := lift (fun w => listdir w p).

End Effects.

Declare Scope host_scope.
Delimit Scope host_scope with host.
Notation "x ← y ; z" := (bind y (fun x => z))
  (at level 20, y at level 100, z at level 200, only parsing) : host_scope.
Notation "y ;; z" := (bind y (fun _ => z))
  (at level 100, z at level 200, only parsing, right associativity) : host_scope.

End Bpy.

(** ** [src/bpyauto.py] *)

Module bpyauto.
Import Bpy PyStr.
Local Open Scope host_scope.

Section Script.
Context {blender : Host}.

(** [if x:] on an optional string: [None] and [""] are both false. *)
Definition truthy_opt (x : option string) : bool :=
  match x with
  | Some s => truthy s
  | None => false
  end.

(** [not o or o.type != t], for the two types the script asks for. *)
Definition missing_mesh (o : option object) : bool :=
  match o with Some ob => negb (is_mesh ob) | None => true end.

Definition missing_armature (o : option object) : bool :=
  match o with Some ob => negb (is_armature ob) | None => true end.

(** [rig.data.bones], by name. *)
Definition bones_of (o : option object) : list string :=
  match o with
  | Some ob => match data ob with ArmatureData bs => bs | _ => [] end
  | None => []
  end.

(** [not 0.0 <= r <= 1.0] *)
Definition out_of_range (r : pyfloat) : bool := negb (fle (Finite 0) r && fle r (Finite 1)).

(** The keyword arguments of [bpy.ops.export_scene.fbx], after [filepath]. *)
Definition fbx_options : list (string * string) :=
  [("use_selection", "True");
   ("apply_scale_options", "FBX_SCALE_UNITS");
   ("add_leaf_bones", "False");
   ("use_armature_deform_only", "False");
   ("bake_anim", "False");
   ("axis_forward", "-Z");
   ("axis_up", "Y");
   ("use_mesh_modifiers", "True");
   ("mesh_smooth_type", "FACE")].

(** Lines 160-196: the nested function, with the variables it closes over
    ([obj], [rig], [head_bone_name]) as parameters. *)
Definition create_cage (obj rig head_bone_name : string)
    (cage_name : string) (scale_factor : Q) : M unit :=
  host (ModeSet OBJECT);;
  host (ObjectSelectAll DESELECT);;
  host (SelectSet obj true);;
  host (SetActive obj);;
  host Duplicate;;
  cage ← context_active_object;
  cage ← set_name cage cage_name;
  host (SetDataName cage cage_name);;
  (* Scale the Cage Mesh. *)
  host (SetActive cage);;
  host (ModeSet EDIT);;
  host (Resize (scale_factor, scale_factor, scale_factor));;
  host (ModeSet OBJECT);;
  (* Weight paint the Cage Mesh *)
  host (SetParent cage rig);;
  host (SetParentType cage "OBJECT");;
  host (ObjectSelectAll DESELECT);;
  host (SelectSet rig true);;
  host (SelectSet cage true);;
  host (SetActive rig);;
  host (ParentSet "ARMATURE" false);;
  host (SetActive cage);;
  vg_cage ← vertex_groups_get cage head_bone_name;
  vg_cage ← match vg_cage with
            | Some g => ret g
            | None => vertex_groups_new cage head_bone_name
            end;
  host (ModeSet EDIT);;
  host (MeshSelectAll SELECT);;
  host (ModeSet OBJECT);;
  n ← len_vertices cage;
  host (VertexGroupAdd cage vg_cage n 1 "REPLACE");;
  host (ModeSet OBJECT);;
  host (ObjectSelectAll DESELECT).

(** Lines 202-205: the file the export goes to. *)
Definition export_target (object_name export_path : string) : M string :=
  if negb (truthy export_path) then
    blend ← gets filepath;
    ret (posixpath.dirname blend +:+ "/" +:+ object_name +:+ ".fbx")
  else
    d ← gets (fun w => isdir w export_path);
    if d then ret (posixpath.join export_path (object_name +:+ ".fbx"))
    else ret export_path.

(** Lines 65-232: the body of the [try]. *)
Definition pipeline (object_name accessory_type attachment_name : string)
    (rig_name head_bone_name : string) (apply_scale : bool)
    (decimate_ratio : option pyfloat) (export_path uv_unwrap_method : string)
    (texture_path : option string) (material_name : string) : M bool :=
  (* --- 1. Setup and Validation --- *)
  o ← gets (fun w => objects w !! object_name);
  when (missing_mesh o)
    (raise (ValueError ("Object '" +:+ object_name +:+ "' not found or is not a mesh.")));;
  let obj := object_name in
  r ← gets (fun w => objects w !! rig_name);
  when (missing_armature r)
    (raise (ValueError ("Rig '" +:+ rig_name +:+ "' not found or is not an armature.")));;
  let rig := rig_name in
  when (negb (bool_decide (head_bone_name ∈ bones_of r)))
    (raise (ValueError ("Head bone '" +:+ head_bone_name +:+ "' not found in the armature.")));;
  (* --- 2. Object Mode Operations --- *)
  host (SetActive obj);;
  host (ModeSet OBJECT);;
  when apply_scale (host (TransformApply false false true));;
  (* --- 3. Decimation (Optional) --- *)
  match decimate_ratio with
  | Some ratio =>
      when (out_of_range ratio)
        (raise (ValueError "decimate_ratio must be between 0.0 and 1.0"));;
      decimate_mod ← modifiers_new obj "Decimate" "DECIMATE";
      host (SetRatio obj decimate_mod ratio);;
      host (ModifierApply "Decimate")
  | None => ret tt
  end;;
  (* --- 4. UV Unwrapping --- *)
  host (SetActive obj);;
  host (ModeSet EDIT);;
  host (MeshSelectAll SELECT);;
  (if String.eqb uv_unwrap_method "SMART_PROJECT" then host SmartProject
   else if String.eqb uv_unwrap_method "UNWRAP" then host Unwrap
   else raise (ValueError ("Invalid uv_unwrap_method: " +:+ uv_unwrap_method)));;
  host (ModeSet OBJECT);;
  (* --- 5. Basic Texture Handling --- *)
  match texture_path with
  | Some texture =>
      if truthy texture then
        found ← gets (fun w => path_exists w texture);
        when (negb found)
          (raise (FileNotFoundError ("Texture file not found: " +:+ texture)));;
        m ← gets (fun w => materials w !! material_name);
        mat ← match m with
              | Some _ => ret material_name
              | None => materials_new material_name
              end;
        host (SetUseNodes mat true);;
        principled_bsdf ← nodes_getitem mat "Principled BSDF";
        tex_image ← nodes_new mat "ShaderNodeTexImage";
        image ← images_load texture;
        host (SetNodeImage mat tex_image image);;
        host (LinksNew mat (Link tex_image "Color" principled_bsdf "Base Color"));;
        slots ← len_materials obj;
        if (0 <? slots)%nat then host (SetMaterialSlot obj 0 mat)
        else host (AppendMaterial obj mat)
      else ret tt
  | None => ret tt
  end;;
  (* --- 6. Rigging --- *)
  host (SetParent obj rig);;
  host (SetParentType obj "OBJECT");;
  host (ObjectSelectAll DESELECT);;
  host (SelectSet rig true);;
  host (SelectSet obj true);;
  host (SetActive rig);;
  host (ParentSet "ARMATURE" false);;
  host (ObjectSelectAll DESELECT);;
  host (SetActive obj);;
  host (ModeSet WEIGHT_PAINT);;
  vg ← vertex_groups_get obj head_bone_name;
  vg ← match vg with
       | Some g => ret g
       | None => vertex_groups_new obj head_bone_name
       end;
  host (ModeSet EDIT);;
  host (MeshSelectAll SELECT);;
  host (ModeSet OBJECT);;
  n ← len_vertices obj;
  host (VertexGroupAdd obj vg n 1 "REPLACE");;
  host (ModeSet WEIGHT_PAINT);;
  (* --- 7. Cage Creation --- *)
  create_cage obj rig head_bone_name "InnerCage" 0.98;;
  create_cage obj rig head_bone_name "OuterCage" 1.02;;
  (* --- 8. FBX Export --- *)
  export_path ← export_target object_name export_path;
  let export_dir := posixpath.dirname export_path in
  there ← gets (fun w => path_exists w export_dir);
  when (negb there) (host (Makedirs export_dir));;
  host (ObjectSelectAll DESELECT);;
  host (SelectSet obj true);;
  host (SelectSet rig true);;
  inner ← objects_getitem "InnerCage";
  host (SelectSet inner true);;
  outer ← objects_getitem "OuterCage";
  host (SelectSet outer true);;
  host (ExportFbx export_path fbx_options);;
  print ("Successfully exported to: " +:+ export_path);;
  ret true.

(** Lines 33-236: the [try] with its one handler. *)
Definition prepare_for_roblox (object_name accessory_type attachment_name : string)
    (rig_name head_bone_name : string) (apply_scale : bool)
    (decimate_ratio : option pyfloat) (export_path uv_unwrap_method : string)
    (texture_path : option string) (material_name : string) : M bool :=
  try_except
    (pipeline object_name accessory_type attachment_name rig_name head_bone_name
       apply_scale decimate_ratio export_path uv_unwrap_method texture_path material_name)
    (fun e => print ("Error: " +:+ str_of e);; ret false).

End Script.
End bpyauto.

(** ** [src/glbtoobj.py] *)

Module glbtoobj.
Import Bpy PyStr.
Local Open Scope host_scope.

Section Script.
Context {blender : Host}.

(** The keyword arguments of [bpy.ops.export_scene.obj], after [filepath]. *)
Definition obj_options : list (string * string) :=
  [("use_selection", "True");
   ("use_animation", "False");
   ("use_materials", "True");
   ("use_triangles", "True");
   ("use_normals", "True");
   ("use_uvs", "True");
   ("path_mode", "COPY")].

(** Lines 13-36: the body of the [try]. *)
Definition conversion (glb_filepath obj_filepath : string) : M bool :=
  host (ObjectSelectAll SELECT);;
  host (Delete false);;
  host (ImportGltf glb_filepath);;
  host (ObjectSelectAll SELECT);;
  host (ExportObj obj_filepath obj_options);;
  print ("Successfully converted '" +:+ glb_filepath +:+ "' to '" +:+ obj_filepath +:+ "'");;
  ret true.

Definition convert_glb_to_obj (glb_filepath obj_filepath : string) : M bool :=
  try_except (conversion glb_filepath obj_filepath)
    (fun e => print ("Error converting '" +:+ glb_filepath +:+ "': " +:+ str_of e);;
              ret false).

(** [filename.lower().endswith(".glb")] *)
Definition is_glb (filename : string) : bool := endswith (lower filename) ".glb".

(** Lines 58-61: what the loop does with one matching file. *)
Definition convert_entry (input_folder output_folder filename : string) : M unit :=
  let glb_path := posixpath.join input_folder filename in
  let obj_filename := (posixpath.splitext filename).1 +:+ ".obj" in
  let obj_path := posixpath.join output_folder obj_filename in
  convert_glb_to_obj glb_path obj_path;;
  ret tt.

Definition batch_convert_glb_to_obj (input_folder output_folder : string) : M unit :=
  there ← gets (fun w => path_exists w output_folder);
  when (negb there) (host (Makedirs output_folder));;
  names ← os_listdir input_folder;
  for_each names
    (fun filename =>
       if is_glb filename then convert_entry input_folder output_folder filename
       else ret tt).

End Script.
End glbtoobj.

(** ** A scene to run the scripts on *)

Module Sample.
Import Bpy.

(** A host that refuses nothing; its decimation halves the vertex count. *)
Definition quiet : Host :=
  {| host_error := fun _ _ => None;
     modifier_verts := fun _ n => (n / 2)%nat;
     modifier_weights := fun _ g => g |}.

(** A host whose glTF importer rejects every file. *)
Definition no_gltf : Host :=
  {| host_error := fun c _ => match c with
                              | ImportGltf _ => Some (RuntimeError "Error: bad glTF")
                              | _ => None
                              end;
     modifier_verts := fun _ n => n;
     modifier_weights := fun _ g => g |}.

Definition helmet : object :=
  Object (MeshData (Mesh "HelmetMesh" 4 false [] [])) (2, 2, 2)%Q true None "OBJECT" [] ∅.

Definition r6 : object :=
  Object (ArmatureData ["Root"; "Head"]) one false None "OBJECT" [] ∅.

Definition disk : gmap (list string) fsnode :=
  <[["home"] := Dir]>
    (<[["home"; "u"] := Dir]>
       (<[["home"; "u"; "scene.blend"] := File None]>
          (<[["out"] := Dir]> ∅))).

(** The helmet and the R6 rig of the script's own example, the helmet
    selected, the scene saved as [/home/u/scene.blend]. *)
Definition scene : world :=
  World (<["MyHelmet" := helmet]> (<["R6" := r6]> ∅)) None OBJECT ∅ ∅
        "/home/u/scene.blend" ["home"; "u"] disk [] [].

(** The same scene with the helmet named [/x]; Blender sets no rule on the
    characters of a name. *)
Definition slash_scene : world :=
  World (<["/x" := helmet]> (<["R6" := r6]> ∅)) None OBJECT ∅ ∅
        "/home/u/scene.blend" ["home"; "u"] disk [] [].

(** A folder with two GLB files and one text file. *)
Definition models : gmap (list string) fsnode :=
  <[["glb"] := Dir]>
    (<[["glb"; "a.glb"] := File (Some {["Cube" := helmet]})]>
       (<[["glb"; "notes.txt"] := File None]>
          (<[["glb"; "B.GLB"] := File (Some {["Rig" := r6]})]> ∅))).

Definition empty_scene : world :=
  World ∅ None OBJECT ∅ ∅ "" [] models [] [].

End Sample.

(** * The terms of the properties *)

Import Bpy PyStr bpyauto glbtoobj.
Local Open Scope host_scope.

(** ** Materials and what a run keeps or ensures *)

(** The calls that create or assign materials, node trees and images. *)
Definition touches_materials (c : call) : bool :=
  match c with
  | MaterialsNew _ | SetUseNodes _ _ | NodesNew _ _ | ImagesLoad _
  | SetNodeImage _ _ _ | LinksNew _ _ | SetMaterialSlot _ _ _ | AppendMaterial _ _ => true
  | _ => false
  end.

Definition call_of (ev : event) : call :=
  match ev with
  | Done c => c
  | Raised c _ => c
  end.

(** Since [w0]: the materials and images are the same, and no call since
    then was one that touches them. *)
Definition materials_untouched (w0 w : world) : Prop :=
  materials w = materials w0 /\ images w = images w0
  /\ exists evs, history w = (history w0 ++ evs)%list
                 /\ Forall (fun ev => touches_materials (call_of ev) = false) evs.

(** [m] keeps [I], however it ends. *)
Definition preserves {A} (I : world -> Prop) (m : M A) : Prop :=
  forall w, I w -> I (m w).2.

(** Every run of [m] that returns satisfies [Q]. *)
Definition ensures {A} (m : M A) (Q : A -> world -> Prop) : Prop :=
  forall w a w', m w = (inr a, w') -> Q a w'.

Definition exported_to (p : string) (w : world) : Prop :=
  exists w1, w = set_stdout (stdout w1 ++ ["Successfully exported to: " +:+ p])%list w1
             /\ last (history w1) = Some (Done (ExportFbx p fbx_options)).

(** ** The steps of [prepare_for_roblox] *)

(** The scene when the decimation step is reached. *)
Definition before_decimation (object_name : string) (apply_scale : bool) (w : world) : world :=
  let w1 := log (Done (ModeSet OBJECT))
              (set_mode OBJECT (log (Done (SetActive object_name))
                                    (set_active (Some object_name) w))) in
  if apply_scale
  then log (Done (TransformApply false false true)) (set_objects (baked (objects w1)) w1)
  else w1.

(** [m] runs from [w] to [w'] and returns [a]. *)
Definition runs {A} (m : M A) (w : world) (a : A) (w' : world) : Prop :=
  m w = (inr a, w').

(** The host calls made before the unwrap method is looked at; [n] is the
    name the new Decimate modifier gets. *)
Definition calls_before_unwrap (obj : string) (apply_scale : bool)
    (decimate_ratio : option pyfloat) (n : string) : list call :=
  [SetActive obj; ModeSet OBJECT]
  ++ (if apply_scale then [TransformApply false false true] else [])
  ++ match decimate_ratio with
     | Some ratio => [ModifiersNew obj "Decimate" "DECIMATE"; SetRatio obj n ratio;
                      ModifierApply "Decimate"]
     | None => []
     end
  ++ [SetActive obj; ModeSet EDIT; MeshSelectAll SELECT].

(** What is known of the scene between two steps: the calls since [w0], that
    nothing was printed, and that the active object [obj] is a mesh. *)
Record focus (w0 : world) (evs : list event) (obj : string) (md : mode_t)
    (mods : list (string * modifier)) (w : world) : Prop := Focus {
  focus_history : history w = (history w0 ++ evs)%list;
  focus_stdout : stdout w = stdout w0;
  focus_active : active w = Some obj;
  focus_mode : mode w = md;
  focus_object : exists ob me,
      objects w !! obj = Some ob /\ data ob = MeshData me /\ modifiers ob = mods
}.

(** The edits a mesh object has received. *)
Definition edits_of (o : option object) : list mesh_edit :=
  match o with
  | Some ob => match data ob with MeshData me => edits me | _ => [] end
  | None => []
  end.

(** ** The record of a batch conversion *)

(** The host calls of one conversion, in the order of lines 14-33. *)
Definition conversion_calls (glb_filepath obj_filepath : string) : list call :=
  [ObjectSelectAll SELECT; Delete false; ImportGltf glb_filepath; ObjectSelectAll SELECT;
   ExportObj obj_filepath obj_options].

(** What one call of [convert_glb_to_obj] leaves on record: either all five
    calls ran and the success line was printed, or the calls ran up to one
    that raised [e], and the error line for [e] was printed. *)
Inductive attempt (glb_filepath obj_filepath : string) : list event -> string -> bool -> Prop :=
| attempt_converted :
    attempt glb_filepath obj_filepath
      (map Done (conversion_calls glb_filepath obj_filepath))
      ("Successfully converted '" +:+ glb_filepath +:+ "' to '" +:+ obj_filepath +:+ "'")
      true
| attempt_raised ran c e rest :
    conversion_calls glb_filepath obj_filepath = (ran ++ c :: rest)%list ->
    attempt glb_filepath obj_filepath
      (map Done ran ++ [Raised c e])
      ("Error converting '" +:+ glb_filepath +:+ "': " +:+ str_of e)
      false.

(** Lines 58-60: the two paths the loop computes for a file name. *)
Definition glb_path_of (input_folder filename : string) : string :=
  posixpath.join input_folder filename.

Definition obj_path_of (output_folder filename : string) : string :=
  posixpath.join output_folder ((posixpath.splitext filename).1 +:+ ".obj").

(** The record of a whole batch: one attempt per matching file, in order. *)
Definition attempts (input_folder output_folder : string) (names : list string)
    (atts : list (list event * string * bool)) : Prop :=
  Forall2 (fun filename a =>
             attempt (glb_path_of input_folder filename) (obj_path_of output_folder filename)
               a.1.1 a.1.2 a.2)
          (filter (fun f => is_glb f = true) names) atts.

(** The line [convert_glb_to_obj] prints when the conversion raised. *)
Definition is_failure_log (line : string) : bool := startswith line "Error converting '".

(** ** Rigged objects and their cages *)

(** An object whose every vertex is in the group [head] with weight 1. *)
Definition full_weight (head : string) (o : object) : Prop :=
  exists me g,
    data o = MeshData me /\ vertex_groups o !! head = Some g
    /\ forall i, (i < nverts me)%nat -> g !! i = Some 1%Q.

(** An object bound to the armature [rig] for deformation by the bone
    [head]: child of [rig], with an Armature modifier that targets [rig], and
    all of its vertices at full weight in the group of [head]. *)
Definition rigged (rig head : string) (o : object) : Prop :=
  parent o = Some rig /\ deformed_by rig o = true /\ full_weight head o.

(** [c] has the mesh of [src], resized as a whole by [factor] on the three
    axes after every edit [src] has received. *)
Definition scaled_copy (factor : Q) (src c : object) : Prop :=
  exists me mc,
    data src = MeshData me /\ data c = MeshData mc
    /\ edits mc = Resized (factor, factor, factor) true :: edits me
    /\ nverts mc = nverts me
    /\ mesh_materials mc = mesh_materials me.

(** What a step may change of an object it does not work on: its selection,
    and the names by which it refers to a renamed object. *)
Definition kept (rig : string) (o o' : object) : Prop :=
  data o' = data o /\ vertex_groups o' = vertex_groups o
  /\ (parent o = Some rig -> parent o' = Some rig)
  /\ (deformed_by rig o = true -> deformed_by rig o' = true).

(** The objects [m'] are those of [m], name for name, each related to what it
    was by [P]. *)
Definition related (P : object -> object -> Prop) (m m' : gmap string object) : Prop :=
  dom m' = dom m
  /\ forall k x, m !! k = Some x -> exists x', m' !! k = Some x' /\ P x x'.

(** Meshes stay meshes and armatures stay armatures. *)
Definition same_kind (o o' : object) : Prop :=
  is_mesh o' = is_mesh o /\ is_armature o' = is_armature o.

(** The calls that neither add, remove nor rename an object. *)
Definition in_place (c : call) : bool :=
  match c with
  | Duplicate | SetName _ _ | Delete _ | ImportGltf _ => false
  | _ => true
  end.

(** The calls of the export step (lines 207-229). *)
Definition export_call (c : call) : bool :=
  match c with
  | Makedirs _ | ObjectSelectAll _ | SelectSet _ _ | ExportFbx _ _ => true
  | _ => false
  end.

(** [I] holds after every run of [m] that returns, if it held before. *)
Definition on_return {A} (I : world -> Prop) (m : M A) : Prop :=
  forall w a w', I w -> m w = (inr a, w') -> I w'.

(** The copy [duplicate] and [import] make of an object, given the names of
    the meshes already there. *)
Definition copy_of (meshes : gset string) (o : object) : object :=
  on_mesh (fun m => set_mesh_name (unique_name meshes (mesh_name m)) m) (set_select true o).

(** * Properties *)

(** ** The monad *)

Section MonadFacts.
Context {blender : Host}.

Lemma bind_ret {A B} (a : A) (k : A -> M B) w : bind (ret a) k w = k a w.
Proof. reflexivity. Qed.

Lemma bind_gets {A B} (f : world -> A) (k : A -> M B) w : bind (gets f) k w = k (f w) w.
Proof. reflexivity. Qed.

Lemma bind_raise {A B} (e : exn) (k : A -> M B) w : bind (raise e) k w = (inl e, w).
Proof. reflexivity. Qed.

Lemma bind_bind {A B C} (m : M A) (k : A -> M B) (k' : B -> M C) w :
  bind (bind m k) k' w = bind m (fun a => bind (k a) k') w.
Proof. unfold bind. destruct (m w) as [[e|a] w']; reflexivity. Qed.

Lemma bind_when_raise {B} (b : bool) (e : exn) (k : unit -> M B) w :
  bind (when b (raise e)) k w = if b then (inl e, w) else k tt w.
Proof. destruct b; reflexivity. Qed.

(** A sequence that ends well went through each of its parts. *)
Lemma bind_inr {A B} (m : M A) (k : A -> M B) w b w'' :
  bind m k w = (inr b, w'') ->
  exists a w', m w = (inr a, w') /\ k a w' = (inr b, w'').
Proof.
  unfold bind. destruct (m w) as [[e|a] w']; intros E; [discriminate|eauto].
Qed.

(** A sequence that raised did so in its first part, or went through it. *)
Lemma bind_inl {A B} (m : M A) (k : A -> M B) w e w'' :
  bind m k w = (inl e, w'') ->
  m w = (inl e, w'') \/ exists a w', m w = (inr a, w') /\ k a w' = (inl e, w'').
Proof.
  unfold bind. destruct (m w) as [[e'|a] w']; intros E.
  - injection E as -> ->. by left.
  - right. eauto.
Qed.

Lemma host_inr c w w' :
  host c w = (inr tt, w') ->
  host_error c w = None /\ exists w1, effect c w = inr w1 /\ w' = log (Done c) w1.
Proof.
  unfold host. destruct (host_error c w); [discriminate|].
  destruct (effect c w) as [e|w1]; [discriminate|].
  intros [= <-]. eauto.
Qed.

Lemma host_inl c w e w' :
  host c w = (inl e, w') -> w' = log (Raised c e) w.
Proof.
  unfold host. destruct (host_error c w).
  - by intros [= -> <-].
  - destruct (effect c w); [by intros [= -> <-]|discriminate].
Qed.

(** The handler of both scripts prints and returns: a [try] with such a
    handler never raises. *)
Lemma try_except_returns {A} (body : M A) (msg : exn -> string) (a0 : A) w :
  try_except body (fun e => bind (print (msg e)) (fun _ => ret a0)) w =
  match body w with
  | (inl e, w') => (inr a0, set_stdout (stdout w' ++ [msg e])%list w')
  | (inr a, w') => (inr a, w')
  end.
Proof. unfold try_except. destruct (body w) as [[e|a] w']; reflexivity. Qed.

End MonadFacts.

(** ** Validation (lines 65-78) *)

Section Validation.
Context {blender : Host}.

(** C3: when the named object is absent or not a mesh, or the named rig is
    absent or not an armature, or the head bone is not among the rig's bones,
    the body raises a [ValueError] in the scene it was given, and
    [prepare_for_roblox] returns [False] after printing that error: no host
    call is made and nothing but the printed line changes. *)
Theorem C3_invalid_names_fail_without_mutation
    (object_name accessory_type attachment_name rig_name head_bone_name : string)
    (apply_scale : bool) (decimate_ratio : option pyfloat)
    (export_path uv_unwrap_method : string) (texture_path : option string)
    (material_name : string) (w : world) :
  missing_mesh (objects w !! object_name) = true
  \/ missing_armature (objects w !! rig_name) = true
  \/ head_bone_name ∉ bones_of (objects w !! rig_name) ->
  exists msg,
    pipeline object_name accessory_type attachment_name rig_name head_bone_name
      apply_scale decimate_ratio export_path uv_unwrap_method texture_path material_name w
    = (inl (ValueError msg), w)
    /\ prepare_for_roblox object_name accessory_type attachment_name rig_name head_bone_name
         apply_scale decimate_ratio export_path uv_unwrap_method texture_path material_name w
       = (inr false, set_stdout (stdout w ++ ["Error: " +:+ msg]) w).
Proof.
  intros Hbad.
  assert (exists msg,
    pipeline object_name accessory_type attachment_name rig_name head_bone_name
      apply_scale decimate_ratio export_path uv_unwrap_method texture_path material_name w
    = (inl (ValueError msg), w)) as [msg Hp].
  { unfold pipeline. rewrite bind_gets, bind_when_raise.
    destruct (missing_mesh (objects w !! object_name)) eqn:Ho; [eauto|].
    rewrite bind_gets, bind_when_raise.
    destruct (missing_armature (objects w !! rig_name)) eqn:Hr; [eauto|].
    rewrite bind_when_raise.
    destruct (bool_decide (head_bone_name ∈ bones_of (objects w !! rig_name))) eqn:Hb;
      [|eauto].
    apply bool_decide_eq_true in Hb. destruct Hbad as [?|[?|?]]; done. }
  exists msg. split; [exact Hp|].
  unfold prepare_for_roblox. rewrite try_except_returns, Hp. reflexivity.
Qed.

(** C9: [accessory_type] and [attachment_name] are never read: two calls that
    differ only in them are the same computation, so they make the same host
    calls, leave the same scene and files, print the same and return the
    same. *)
Theorem C9_accessory_and_attachment_unused
    (object_name accessory_type attachment_name accessory_type' attachment_name' : string)
    (rig_name head_bone_name : string)
    (apply_scale : bool) (decimate_ratio : option pyfloat)
    (export_path uv_unwrap_method : string) (texture_path : option string)
    (material_name : string) (w : world) :
  prepare_for_roblox object_name accessory_type attachment_name rig_name head_bone_name
    apply_scale decimate_ratio export_path uv_unwrap_method texture_path material_name w
  = prepare_for_roblox object_name accessory_type' attachment_name' rig_name head_bone_name
      apply_scale decimate_ratio export_path uv_unwrap_method texture_path material_name w.
Proof. reflexivity. Qed.

End Validation.

Lemma C3_witness :
  exists msg,
    pipeline (blender:=Sample.quiet) "Nope" "Hat" "HatAttachment" "R6" "Head" true None ""
      "SMART_PROJECT" None "M" Sample.scene
    = (inl (ValueError msg), Sample.scene)
    /\ prepare_for_roblox (blender:=Sample.quiet) "Nope" "Hat" "HatAttachment" "R6" "Head" true None ""
         "SMART_PROJECT" None "M" Sample.scene
       = (inr false, set_stdout (stdout Sample.scene ++ ["Error: " +:+ msg]) Sample.scene).
Proof.
  apply (C3_invalid_names_fail_without_mutation (blender:=Sample.quiet)).
  left. reflexivity.
Defined.

(** ** What holds of the scene whatever the outcome *)

Section Invariants.
Context {blender : Host}.

Lemma preserves_ret {A} I (a : A) : preserves I (ret a).
Proof. by intros w. Qed.

Lemma preserves_raise {A} I e : preserves I (raise (A:=A) e).
Proof. by intros w. Qed.

Lemma preserves_gets {A} I (f : world -> A) : preserves I (gets f).
Proof. by intros w. Qed.

Lemma preserves_lift {A} I (f : world -> exn + A) : preserves I (lift f).
Proof. intros w Hw. unfold lift. by destruct (f w). Qed.

Lemma preserves_bind {A B} I (m : M A) (k : A -> M B) :
  preserves I m -> (forall a, preserves I (k a)) -> preserves I (bind m k).
Proof.
  intros Hm Hk w Hw. unfold bind. specialize (Hm w Hw).
  destruct (m w) as [[e|a] w']; [exact Hm|]. by apply Hk.
Qed.

Lemma preserves_when I b (m : M unit) : preserves I m -> preserves I (when b m).
Proof. destruct b; [done|]. intros _. apply preserves_ret. Qed.

Lemma preserves_try_except {A} I (body : M A) handler :
  preserves I body -> (forall e, preserves I (handler e)) -> preserves I (try_except body handler).
Proof.
  intros Hb Hh w Hw. unfold try_except. specialize (Hb w Hw).
  destruct (body w) as [[e|a] w']; [|exact Hb]. by apply Hh.
Qed.

Lemma history_log ev w : history (log ev w) = (history w ++ [ev])%list.
Proof. reflexivity. Qed.

Lemma effect_keeps_materials c w w' :
  effect c w = inr w' -> touches_materials c = false ->
  materials w' = materials w /\ images w' = images w /\ history w' = history w.
Proof.
  destruct c; simpl; try discriminate; intros E _;
    unfold object_mode, edit_mesh, makedirs, write_file in E;
    repeat case_match; simplify_eq; done.
Qed.

Lemma host_keeps_materials w0 c :
  touches_materials c = false -> preserves (materials_untouched w0) (host c).
Proof.
  intros Hc w (Hm & Hi & evs & Hh & Hevs). unfold host.
  destruct (host_error c w) as [e|]; simpl.
  { repeat split; [done..|]. exists (evs ++ [Raised c e])%list.
    rewrite history_log, Hh, <- (assoc_L (++)). split; [done|].
    apply Forall_app; split; [done|]. by constructor. }
  destruct (effect c w) as [e|w'] eqn:E; simpl.
  { repeat split; [done..|]. exists (evs ++ [Raised c e])%list.
    rewrite history_log, Hh, <- (assoc_L (++)). split; [done|].
    apply Forall_app; split; [done|]. by constructor. }
  destruct (effect_keeps_materials _ _ _ E Hc) as (Em & Ei & Eh).
  split; [exact (eq_trans Em Hm)|]. split; [exact (eq_trans Ei Hi)|].
  exists (evs ++ [Done c])%list.
  rewrite history_log, Eh, Hh, <- (assoc_L (++)). split; [done|].
  apply Forall_app; split; [done|]. by constructor.
Qed.

Lemma print_keeps_materials w0 s : preserves (materials_untouched w0) (print s).
Proof. by intros w. Qed.

End Invariants.

(** ** The texture step (lines 110-132) *)

Section Texture.
Context {blender : Host}.

Ltac keeps :=
  repeat first
    [ apply preserves_ret
    | apply preserves_raise
    | apply preserves_gets
    | apply preserves_lift
    | apply print_keeps_materials
    | apply host_keeps_materials; reflexivity
    | apply preserves_when
    | apply preserves_bind; [|intros ?]
    | match goal with
      | |- preserves _ (match ?x with _ => _ end) => destruct x
      end ].

Lemma create_cage_keeps_materials w0 obj rig head_bone_name cage_name scale_factor :
  preserves (materials_untouched w0)
    (create_cage obj rig head_bone_name cage_name scale_factor).
Proof.
  unfold create_cage, context_active_object, set_name, vertex_groups_get,
    vertex_groups_new, len_vertices.
  keeps.
Qed.

Lemma pipeline_without_texture_keeps_materials w0
    (object_name accessory_type attachment_name rig_name head_bone_name : string)
    (apply_scale : bool) (decimate_ratio : option pyfloat)
    (export_path uv_unwrap_method material_name : string) :
  preserves (materials_untouched w0)
    (pipeline object_name accessory_type attachment_name rig_name head_bone_name
       apply_scale decimate_ratio export_path uv_unwrap_method None material_name).
Proof.
  unfold pipeline, modifiers_new, vertex_groups_get, vertex_groups_new, len_vertices,
    export_target, objects_getitem.
  keeps; apply create_cage_keeps_materials.
Qed.

(** C10: with [texture_path = ""] the run is the run with
    [texture_path = None], step for step, although the empty path names no
    existing file: the existence check of line 113 is not reached, so no
    [FileNotFoundError] comes from it.  In that run no call creates or
    assigns a material, node or image, and [bpy.data.materials] and
    [bpy.data.images] end as they began. *)
Theorem C10_empty_texture_path_skips_material_step
    (object_name accessory_type attachment_name rig_name head_bone_name : string)
    (apply_scale : bool) (decimate_ratio : option pyfloat)
    (export_path uv_unwrap_method material_name : string) (w : world) :
  path_exists w "" = false
  /\ prepare_for_roblox object_name accessory_type attachment_name rig_name head_bone_name
       apply_scale decimate_ratio export_path uv_unwrap_method (Some "") material_name w
     = prepare_for_roblox object_name accessory_type attachment_name rig_name head_bone_name
         apply_scale decimate_ratio export_path uv_unwrap_method None material_name w
  /\ materials_untouched w
       (prepare_for_roblox object_name accessory_type attachment_name rig_name head_bone_name
          apply_scale decimate_ratio export_path uv_unwrap_method (Some "") material_name w).2.
Proof.
  split; [reflexivity|].
  assert (prepare_for_roblox object_name accessory_type attachment_name rig_name
            head_bone_name apply_scale decimate_ratio export_path uv_unwrap_method
            (Some "") material_name w
          = prepare_for_roblox object_name accessory_type attachment_name rig_name
              head_bone_name apply_scale decimate_ratio export_path uv_unwrap_method
              None material_name w) as Heq by reflexivity.
  split; [exact Heq|]. rewrite Heq.
  apply (preserves_try_except (materials_untouched w)).
  - apply pipeline_without_texture_keeps_materials.
  - intros e. apply preserves_bind; [apply print_keeps_materials|].
    intros _. apply preserves_ret.
  - repeat split. exists []. by rewrite (right_id_L [] (++)).
Qed.

End Texture.

(** ** What a run that ends well has done *)

Section Outcome.
Context {blender : Host}.

(** What the end of a sequence ensures, the sequence ensures. *)
Lemma ensures_bind_tail {A B} (m : M A) (k : A -> M B) Q :
  (forall a, ensures (k a) Q) -> ensures (bind m k) Q.
Proof.
  intros Hk w b w'' E. apply bind_inr in E as (a & w' & _ & E). by eapply Hk.
Qed.

Lemma pipeline_ends_with_export
    (object_name accessory_type attachment_name rig_name head_bone_name : string)
    (apply_scale : bool) (decimate_ratio : option pyfloat)
    (export_path uv_unwrap_method : string) (texture_path : option string)
    (material_name : string) :
  ensures
    (pipeline object_name accessory_type attachment_name rig_name head_bone_name
       apply_scale decimate_ratio export_path uv_unwrap_method texture_path material_name)
    (fun b w => b = true /\ exists p, exported_to p w).
Proof.
  unfold pipeline.
  repeat lazymatch goal with
         | |- ensures (bind (host (ExportFbx _ _)) _) _ => fail
         | |- ensures (bind _ _) _ => apply ensures_bind_tail; intros ?; lazy zeta
         end.
  intros w b w' E.
  apply bind_inr in E as ([] & w1 & E1 & E2).
  apply host_inr in E1 as (_ & w2 & _ & ->).
  match type of E2 with
  | context [log (Done (ExportFbx ?p _)) _] =>
      remember (log (Done (ExportFbx p fbx_options)) w2) as wl eqn:Hwl;
      injection E2 as <- <-; split; [done|]; exists p, wl
  end.
  split; [reflexivity|]. subst wl. rewrite history_log. apply last_snoc.
Qed.

(** C6: [prepare_for_roblox] always returns a boolean.  When its body raises
    [e] in a scene [w1], the result is [False] and the scene is [w1] with the
    line [Error: e] printed, nothing after the raise having run; when the
    body returns, the result is [True], the last host call was the export to
    the resolved path [p] and the last line printed is
    [Successfully exported to: p]. *)
Theorem C6_prepare_for_roblox_returns_a_boolean
    (object_name accessory_type attachment_name rig_name head_bone_name : string)
    (apply_scale : bool) (decimate_ratio : option pyfloat)
    (export_path uv_unwrap_method : string) (texture_path : option string)
    (material_name : string) (w : world) :
  let r := prepare_for_roblox object_name accessory_type attachment_name rig_name
             head_bone_name apply_scale decimate_ratio export_path uv_unwrap_method
             texture_path material_name w in
  (exists b : bool, r.1 = inr b)
  /\ match pipeline object_name accessory_type attachment_name rig_name head_bone_name
             apply_scale decimate_ratio export_path uv_unwrap_method texture_path
             material_name w with
     | (inl e, w1) =>
         r = (inr false, set_stdout (stdout w1 ++ ["Error: " +:+ str_of e])%list w1)
     | (inr b, w1) =>
         r = (inr true, w1) /\ exists p, exported_to p w1
     end.
Proof.
  intros r. subst r. unfold prepare_for_roblox. rewrite try_except_returns.
  destruct (pipeline _ _ _ _ _ _ _ _ _ _ _ w) as [[e|b] w1] eqn:E.
  - split; [by eexists|reflexivity].
  - apply pipeline_ends_with_export in E as [-> Hp]. split; [by eexists|done].
Qed.

End Outcome.

(** ** The steps before the UV unwrap (lines 81-106) *)

Section EarlySteps.
Context {blender : Host}.

(** A host call that is not refused and whose effect is [w1]. *)
Lemma bind_host {B} c (k : unit -> M B) w w1 :
  host_error c w = None -> effect c w = inr w1 ->
  bind (host c) k w = k tt (log (Done c) w1).
Proof. intros He Hw. unfold bind, host. by rewrite He, Hw. Qed.

Lemma missing_mesh_false o :
  missing_mesh o = false -> exists ob me, o = Some ob /\ data ob = MeshData me.
Proof.
  destruct o as [ob|]; [|discriminate]. unfold missing_mesh, is_mesh.
  destruct (data ob) eqn:E; try discriminate. eauto.
Qed.


End EarlySteps.

Section UnwrapStep.
Context {blender : Host}.

(** The host of this section refuses nothing. *)
Hypothesis quiet_host : forall c w, host_error c w = None.

Lemma bind_runs {A B} (m : M A) (k : A -> M B) w a w' :
  runs m w a w' -> bind m k w = k a w'.
Proof. unfold runs, bind. by intros ->. Qed.

Lemma runs_bind {A B} (m : M A) (k : A -> M B) w a w' b w'' :
  runs m w a w' -> runs (k a) w' b w'' -> runs (bind m k) w b w''.
Proof. unfold runs. intros Hm Hk. by rewrite (bind_runs _ _ _ _ _ Hm). Qed.

Lemma runs_ret {A} (a : A) w : runs (ret a) w a w.
Proof. reflexivity. Qed.

Lemma find_named_app {A} n (l l' : list (string * A)) :
  find_named n (l ++ l') = match find_named n l with
                           | Some x => Some x
                           | None => find_named n l'
                           end.
Proof.
  induction l as [|[k x] l IH]; [done|]. simpl. by destruct (String.eqb k n).
Qed.

Lemma find_named_None {A} n (l : list (string * A)) :
  n ∉ names_of l -> find_named n l = None.
Proof.
  unfold names_of. induction l as [|[k x] l IH]; [done|]. simpl.
  rewrite not_elem_of_union, not_elem_of_singleton. intros [Hk Hl].
  destruct (String.eqb_spec k n); [congruence|]. by apply IH.
Qed.

Lemma find_named_change {A} n k (f : A -> A) (l : list (string * A)) :
  find_named n (change_named k f l)
  = (fun x => if String.eqb n k then f x else x) <$> find_named n l.
Proof.
  unfold change_named. induction l as [|[k' x] l IH]; [done|]. simpl.
  destruct (String.eqb_spec k' k) as [->|Hk]; simpl.
  - destruct (String.eqb_spec k n) as [->|Hn]; simpl; [by rewrite String.eqb_refl|done].
  - destruct (String.eqb_spec k' n) as [->|Hn]; simpl; [|done].
    by destruct (String.eqb_spec n k).
Qed.

Lemma find_named_Some {A} n (l : list (string * A)) :
  n ∈ names_of l -> is_Some (find_named n l).
Proof.
  unfold names_of. induction l as [|[k x] l IH]; simpl.
  - intros Hn. by apply not_elem_of_empty in Hn.
  - rewrite elem_of_union, elem_of_singleton. intros Hn.
    destruct (String.eqb_spec k n) as [->|Hk]; [by eexists|].
    apply IH. by destruct Hn as [->|Hn].
Qed.

(** [obj.modifiers.new(name=n)] followed by [modifier_apply(modifier=n)]
    always finds a modifier of that name: the new one, or one the object
    already had. *)
Lemma find_after_new {A} n (x : A) (l : list (string * A)) :
  is_Some (find_named n (l ++ [(unique_name (names_of l) n, x)])).
Proof.
  rewrite find_named_app. unfold unique_name. case_bool_decide as Hn.
  - apply find_named_Some in Hn as [y ->]. by eexists.
  - rewrite (find_named_None _ _ Hn). simpl. rewrite String.eqb_refl. by eexists.
Qed.

Lemma focus_names name w0 evs obj md mods w :
  focus w0 evs obj md mods w ->
  unique_name (names_of (match objects w !! obj with
                         | Some ob => modifiers ob
                         | None => []
                         end)) name
  = unique_name (names_of mods) name.
Proof. intros [_ _ _ _ (ob & me & Ho & Hme & Hmods)]. by rewrite Ho, Hmods. Qed.

Lemma focus_log w0 evs obj md mods c w :
  focus w0 evs obj md mods w ->
  focus w0 (evs ++ [Done c]) obj md mods (log (Done c) w).
Proof.
  intros [Hh Hs Ha Hm Ho]. split; try done.
  by rewrite history_log, Hh, <- (assoc_L (++)).
Qed.

Lemma effect_set_active {w0 evs obj md mods w} :
  focus w0 evs obj md mods w ->
  exists w1, effect (SetActive obj) w = inr w1 /\ focus w0 evs obj md mods w1.
Proof. intros [Hh Hs Ha Hm Ho]. eexists. split; [reflexivity|]. by split. Qed.

Lemma effect_mode_set m {w0 evs obj md mods w} :
  focus w0 evs obj md mods w ->
  exists w1, effect (ModeSet m) w = inr w1 /\ focus w0 evs obj m mods w1.
Proof.
  intros [Hh Hs Ha Hm (ob & me & Ho & Hme & Hmods)].
  exists (set_mode m w). split.
  - cbn [effect]. unfold active_object. rewrite Ha, Ho, Hme. by destruct m.
  - split; try done. eauto.
Qed.

Lemma effect_transform_apply {w0 evs obj mods w} :
  focus w0 evs obj OBJECT mods w ->
  exists w1, effect (TransformApply false false true) w = inr w1
             /\ focus w0 evs obj OBJECT mods w1.
Proof.
  intros [Hh Hs Ha Hm (ob & me & Ho & Hme & Hmods)].
  exists (set_objects (baked (objects w)) w). split.
  - cbn [effect]. unfold object_mode, mode_is. rewrite Hm. reflexivity.
  - split; try done. cbn. unfold baked. rewrite lookup_fmap, Ho. cbn.
    destruct (select ob).
    + eexists _, _. split; [reflexivity|]. unfold bake_scale, on_mesh.
      rewrite Hme. cbn. done.
    + eauto.
Qed.

Lemma effect_modifiers_new name ty {w0 evs obj md mods w} :
  focus w0 evs obj md mods w ->
  exists w1, effect (ModifiersNew obj name ty) w = inr w1
             /\ focus w0 evs obj md
                  (mods ++ [(unique_name (names_of mods) name, default_modifier ty)]) w1.
Proof.
  intros [Hh Hs Ha Hm (ob & me & Ho & Hme & Hmods)].
  eexists. split; [reflexivity|].
  split; try done. cbn. rewrite lookup_alter_eq, Ho. cbn.
  eexists _, _. split; [reflexivity|]. split; [exact Hme|]. by rewrite Hmods.
Qed.

Lemma effect_set_ratio n r {w0 evs obj md mods w} :
  focus w0 evs obj md mods w ->
  exists w1, effect (SetRatio obj n r) w = inr w1
             /\ focus w0 evs obj md (change_named n (set_ratio r) mods) w1.
Proof.
  intros [Hh Hs Ha Hm (ob & me & Ho & Hme & Hmods)].
  eexists. split; [reflexivity|].
  split; try done. cbn. rewrite lookup_alter_eq, Ho. cbn.
  eexists _, _. split; [reflexivity|]. split; [exact Hme|]. by rewrite Hmods.
Qed.

Lemma effect_modifier_apply n {w0 evs obj mods w} :
  is_Some (find_named n mods) ->
  focus w0 evs obj OBJECT mods w ->
  exists w1, effect (ModifierApply n) w = inr w1
             /\ focus w0 evs obj OBJECT (remove_named n mods) w1.
Proof.
  intros [m Hfind] [Hh Hs Ha Hm (ob & me & Ho & Hme & Hmods)].
  eexists. split.
  - cbn [effect]. unfold active_object, mode_is. rewrite Ha, Ho, Hm, Hmods, Hfind.
    reflexivity.
  - split; try done. cbn. rewrite lookup_alter_eq, Ho. cbn.
    eexists _, _. split; [reflexivity|]. unfold apply_modifier, on_mesh.
    rewrite Hme. cbn. by rewrite Hmods.
Qed.

Lemma effect_mesh_select_all a {w0 evs obj mods w} :
  focus w0 evs obj EDIT mods w ->
  exists w1, effect (MeshSelectAll a) w = inr w1 /\ focus w0 evs obj EDIT mods w1.
Proof.
  intros [Hh Hs Ha Hm (ob & me & Ho & Hme & Hmods)].
  eexists. split.
  - cbn [effect]. unfold edit_mesh, active_object, mode_is, is_mesh.
    rewrite Ha, Ho, Hm, Hme. reflexivity.
  - split; try done. cbn. rewrite lookup_alter_eq, Ho. cbn.
    eexists _, _. split; [reflexivity|]. unfold on_mesh. rewrite Hme. done.
Qed.

Lemma run_host c {w0 evs obj md mods w} :
  (exists w1, effect c w = inr w1 /\ focus w0 evs obj md mods w1) ->
  exists w2, runs (host c) w tt w2 /\ focus w0 (evs ++ [Done c]) obj md mods w2.
Proof.
  intros (w1 & E & F). exists (log (Done c) w1). split; [|by apply focus_log].
  unfold runs, host. by rewrite quiet_host, E.
Qed.

(** One step of the script: [lem] gives the world it runs to and what is
    known there. *)
Tactic Notation "run" uconstr(lem) :=
  lazymatch goal with
  | F : focus _ _ _ _ _ _ |- _ =>
      let w1 := fresh "w" in
      let R := fresh "R" in
      let F' := fresh "F" in
      destruct (lem F) as (w1 & R & F');
      rewrite (bind_runs _ _ _ _ _ R); clear R F; rename F' into F
  end.

Tactic Notation "call" constr(c) "by" uconstr(lem) :=
  lazymatch goal with
  | F : focus _ _ _ _ _ _ |- _ =>
      let w1 := fresh "w" in
      let R := fresh "R" in
      let F' := fresh "F" in
      destruct (run_host c (lem F)) as (w1 & R & F');
      rewrite (bind_runs _ _ _ _ _ R); clear R F; rename F' into F
  end.

(** Lines 83-84. *)
Lemma run_apply_scale (apply_scale : bool) {w0 evs obj mods w} :
  focus w0 evs obj OBJECT mods w ->
  exists w1, runs (when apply_scale (host (TransformApply false false true))) w tt w1
             /\ focus w0 (evs ++ if apply_scale
                                 then [Done (TransformApply false false true)] else [])
                  obj OBJECT mods w1.
Proof.
  intros F. destruct apply_scale; cbn [when].
  - exact (run_host _ (effect_transform_apply F)).
  - exists w. split; [apply runs_ret|]. by rewrite (right_id_L [] (++)).
Qed.

(** Lines 87-93, for a ratio in range. *)
Lemma run_decimation (decimate_ratio : option pyfloat) {w0 evs obj mods w} :
  match decimate_ratio with Some ratio => out_of_range ratio = false | None => True end ->
  focus w0 evs obj OBJECT mods w ->
  exists w1 mods',
    runs match decimate_ratio with
         | Some ratio =>
             when (out_of_range ratio)
               (raise (ValueError "decimate_ratio must be between 0.0 and 1.0"));;
             decimate_mod ← modifiers_new obj "Decimate" "DECIMATE";
             host (SetRatio obj decimate_mod ratio);;
             host (ModifierApply "Decimate")
         | None => ret tt
         end w tt w1
    /\ focus w0 (evs ++ match decimate_ratio with
                        | Some ratio =>
                            [Done (ModifiersNew obj "Decimate" "DECIMATE");
                             Done (SetRatio obj (unique_name (names_of mods) "Decimate") ratio);
                             Done (ModifierApply "Decimate")]
                        | None => []
                        end) obj OBJECT mods' w1.
Proof.
  intros Hratio F. destruct decimate_ratio as [ratio|].
  - unfold runs. rewrite bind_when_raise, Hratio.
    unfold modifiers_new. rewrite bind_bind, bind_gets, (focus_names _ _ _ _ _ _ _ F).
    rewrite bind_bind.
    call (ModifiersNew obj "Decimate" "DECIMATE") by (effect_modifiers_new "Decimate" "DECIMATE").
    rewrite bind_ret.
    call (SetRatio obj (unique_name (names_of mods) "Decimate") ratio)
      by (effect_set_ratio (unique_name (names_of mods) "Decimate") ratio).
    destruct (run_host (ModifierApply "Decimate")
                (effect_modifier_apply "Decimate"
                   ltac:(rewrite find_named_change; apply fmap_is_Some, find_after_new) F))
      as (w3 & R & F').
    eexists _, _. split; [exact R|]. by rewrite <- !(assoc_L (++)) in F'.
  - exists w, mods. split; [apply runs_ret|]. by rewrite (right_id_L [] (++)).
Qed.


End UnwrapStep.





(** ** The export path and its directory (lines 202-209) *)

Section ExportPath.
Context {blender : Host}.

(** Lines 202-205, case by case. *)
Lemma export_target_cases (object_name export_path : string) (w : world) :
  export_target object_name export_path w
  = (inr (if negb (truthy export_path)
          then posixpath.dirname (filepath w) +:+ "/" +:+ object_name +:+ ".fbx"
          else if isdir w export_path
               then posixpath.join export_path (object_name +:+ ".fbx")
               else export_path), w).
Proof.
  unfold export_target. destruct (truthy export_path); cbn [negb]; [|reflexivity].
  rewrite bind_gets. by destruct (isdir w export_path).
Qed.

(** [os.path.join(d, f)] puts [f] under [d] unless [f] starts at the root. *)
Lemma join_relative (d f : string) :
  startswith f "/" = false ->
  posixpath.join d f
  = if negb (truthy d) || endswith d "/" then d +:+ f else d +:+ "/" +:+ f.
Proof. unfold posixpath.join. by intros ->. Qed.

Lemma join_absolute (d f : string) :
  startswith f "/" = true -> posixpath.join d f = f.
Proof. unfold posixpath.join. by intros ->. Qed.

Lemma node_at_insert_dir (f : gmap (list string) fsnode) k k0 :
  node_at f k0 = Some Dir -> node_at (<[k:=Dir]> f) k0 = Some Dir.
Proof.
  destruct k0 as [|c k0]; [done|]. simpl. intros Hk0.
  destruct (decide (k = c :: k0)) as [->|Hne].
  - by rewrite lookup_insert_eq.
  - by rewrite lookup_insert_ne.
Qed.

Lemma node_at_insert_eq (f : gmap (list string) fsnode) k :
  node_at (<[k:=Dir]> f) k = Some Dir.
Proof. destruct k; [done|]. simpl. by rewrite lookup_insert_eq. Qed.

(** [os.makedirs] removes nothing: what was a directory stays one. *)
Lemma mkdirs_keeps_dirs cs : forall f cur created f' k0,
  mkdirs f cur cs created = inr f' -> node_at f k0 = Some Dir -> node_at f' k0 = Some Dir.
Proof.
  induction cs as [|c cs IH]; intros f cur created f' k0; simpl.
  - destruct created; [|discriminate]. by intros [= <-].
  - destruct (node_at f (step cur c)) as [[|s]|] eqn:Hk; [|discriminate|].
    + intros E Hk0. by eapply IH.
    + intros E Hk0. eapply IH; [exact E|]. by apply node_at_insert_dir.
Qed.

(** After [os.makedirs], walking the same components from the same place
    ends in a directory. *)
Lemma mkdirs_walk cs : forall f cur created f',
  mkdirs f cur cs created = inr f' -> node_at f cur = Some Dir ->
  exists k, walk f' cur cs = Some k /\ node_at f' k = Some Dir.
Proof.
  induction cs as [|c cs IH]; intros f cur created f'; simpl.
  - destruct created; [|discriminate]. intros [= <-] Hcur. eauto.
  - destruct (node_at f (step cur c)) as [[|s]|] eqn:Hk; [|discriminate|].
    + intros E Hcur. rewrite (mkdirs_keeps_dirs _ _ _ _ _ _ E Hcur). by eapply IH.
    + intros E Hcur.
      rewrite (mkdirs_keeps_dirs _ _ _ _ _ cur E (node_at_insert_dir _ _ _ Hcur)).
      eapply IH; [exact E|]. apply node_at_insert_eq.
Qed.

(** [os.makedirs(p)], when it returns, leaves [p] a directory. *)
Lemma makedirs_isdir (p : string) (w w' : world) :
  makedirs p w = inr w' -> isdir w' p = true.
Proof.
  unfold makedirs. destruct (truthy p) eqn:Hp; [|discriminate].
  destruct (node_at (fs w) (start w p)) as [[|s]|] eqn:Hs; try discriminate.
  destruct (mkdirs _ _ _ _) as [e|f] eqn:E; [discriminate|]. intros [= <-].
  destruct (mkdirs_walk _ _ _ _ _ E Hs) as (k & Hw & Hk).
  unfold isdir, stat, locate. rewrite Hp.
  change (fs (set_fs f w)) with f. change (start (set_fs f w) p) with (start w p).
  by rewrite Hw, Hk.
Qed.

End ExportPath.

(** C5, where the code departs from it: with the existing directory [/out]
    as [export_path] and an object named [/x], line 205 resolves the export
    path to [/x.fbx], not to a file under [/out]: [os.path.join] drops the
    directory when the file name starts with a slash.  The run succeeds and
    writes [/x.fbx]; nothing is written under [/out]. *)
Theorem C5_object_name_with_leading_slash_leaves_the_directory :
  let w := Sample.slash_scene in
  let r := prepare_for_roblox (blender:=Sample.quiet) "/x" "Hat" "HatAttachment" "R6" "Head"
             true None "/out" "SMART_PROJECT" None "RobloxMaterial" w in
  isdir w "/out" = true
  /\ export_target "/x" "/out" w = (inr "/x.fbx", w)
  /\ r.1 = inr true
  /\ last (stdout r.2) = Some "Successfully exported to: /x.fbx"
  /\ path_exists r.2 "/x.fbx" = true
  /\ path_exists r.2 "/out//x.fbx" = false
  /\ path_exists r.2 "/out/x.fbx" = false.
Proof. repeat split; vm_compute; reflexivity. Qed.

(** The other cases of line 202-205 on the script's own example: an empty
    [export_path] gives the directory of the scene file, a file path is
    taken as it is, a directory gets [<object_name>.fbx] appended; and the
    run with a new directory creates it before the export. *)
Lemma export_target_examples :
  let w := Sample.scene in
  export_target "MyHelmet" "" w = (inr "/home/u/MyHelmet.fbx", w)
  /\ export_target "MyHelmet" "/out" w = (inr "/out/MyHelmet.fbx", w)
  /\ export_target "MyHelmet" "/out/" w = (inr "/out/MyHelmet.fbx", w)
  /\ export_target "MyHelmet" "/new/dir/h.fbx" w
     = (inr "/new/dir/h.fbx", w)
  /\ let r := prepare_for_roblox (blender:=Sample.quiet) "MyHelmet" "Hat" "HatAttachment"
                "R6" "Head" true None "/new/dir/h.fbx" "SMART_PROJECT" None "RobloxMaterial" w in
     r.1 = inr true /\ isdir w "/new/dir" = false /\ isdir r.2 "/new/dir" = true
     /\ path_exists r.2 "/new/dir/h.fbx" = true.
Proof. repeat split; vm_compute; reflexivity. Qed.

(** A bare file name as [export_path] has the empty string as its directory;
    line 208 finds that it does not exist and line 209 asks [os.makedirs] to
    create it, which raises: the run ends with [False] and exports nothing. *)
Lemma bare_file_name_is_not_exported :
  let w := Sample.scene in
  let r := prepare_for_roblox (blender:=Sample.quiet) "MyHelmet" "Hat" "HatAttachment"
             "R6" "Head" true None "helmet.fbx" "SMART_PROJECT" None "RobloxMaterial" w in
  posixpath.dirname "helmet.fbx" = ""
  /\ r.1 = inr false
  /\ last (history r.2) = Some (Raised (Makedirs "") (OSError "No such file or directory: ''"))
  /\ path_exists r.2 "helmet.fbx" = false.
Proof. repeat split; vm_compute; reflexivity. Qed.

(** ** The batch converter ([src/glbtoobj.py]) *)

Section Batch.
Context {blender : Host}.

(** No host call prints, and none touches the record of calls. *)
Lemma effect_history c w w' :
  effect c w = inr w' -> history w' = history w /\ stdout w' = stdout w.
Proof.
  destruct c; simpl; intros E;
    unfold object_mode, edit_mesh, makedirs, write_file in E;
    repeat case_match; simplify_eq; done.
Qed.

(** A host call either raises or runs, and adds its record either way. *)
Lemma host_cases c w :
  (exists e w', host c w = (inl e, w')
                /\ history w' = (history w ++ [Raised c e])%list /\ stdout w' = stdout w)
  \/ (exists w', host c w = (inr tt, w')
                 /\ history w' = (history w ++ [Done c])%list /\ stdout w' = stdout w).
Proof.
  unfold host. destruct (host_error c w) as [e|]; [left; by eexists _, _|].
  destruct (effect c w) as [e|w1] eqn:E; [left; by eexists _, _|right].
  apply effect_history in E as [Hh Hs]. eexists. split; [reflexivity|].
  by rewrite history_log, Hh.
Qed.

Lemma bind_raised {A B} (m : M A) (k : A -> M B) w e w' :
  m w = (inl e, w') -> bind m k w = (inl e, w').
Proof. unfold bind. by intros ->. Qed.

(** One call of a conversion: either it raises and the attempt ends there
    with [ran] before it, or the conversion goes on. *)
Ltac conversion_step ran c :=
  lazymatch goal with
  | Hh : history ?wc = (history ?w ++ ?evs)%list, Hs : stdout ?wc = stdout ?w
    |- context [bind (host c) _ ?wc] =>
      let e := fresh "e" in
      let w' := fresh "w" in
      let E := fresh "E" in
      let Hh' := fresh "Hh" in
      let Hs' := fresh "Hs" in
      destruct (host_cases c wc) as [(e & w' & E & Hh' & Hs')|(w' & E & Hh' & Hs')];
      [ rewrite (bind_raised _ _ _ _ _ E); eexists _, _, _, _; split; [reflexivity|];
        split; [exact (eq_trans Hh' (eq_trans (f_equal (fun l => (l ++ [Raised c e])%list) Hh)
                                       (eq_sym (assoc_L (++) _ _ _))))|];
        split; [exact (f_equal (fun l => (l ++ [_])%list) (eq_trans Hs' Hs))|];
        apply (attempt_raised _ _ ran c e _ eq_refl)
      | rewrite (bind_runs _ _ _ _ _ E);
        pose proof (eq_trans Hh' (eq_trans (f_equal (fun l => (l ++ [Done c])%list) Hh)
                                    (eq_sym (assoc_L (++) _ _ _))));
        pose proof (eq_trans Hs' Hs);
        clear Hh Hs Hh' Hs' E ]
  end.

(** Lines 12-40: [convert_glb_to_obj] always returns, having made an attempt
    and printed one line. *)
Lemma convert_glb_to_obj_attempt glb obj w :
  exists b w' evs line,
    convert_glb_to_obj glb obj w = (inr b, w')
    /\ history w' = (history w ++ evs)%list
    /\ stdout w' = (stdout w ++ [line])%list
    /\ attempt glb obj evs line b.
Proof.
  unfold convert_glb_to_obj. rewrite try_except_returns. unfold conversion.
  assert (history w = (history w ++ [])%list) as Hh by (by rewrite (right_id_L [] (++))).
  assert (stdout w = stdout w) as Hs by done.
  conversion_step (@nil call) (ObjectSelectAll SELECT).
  conversion_step [ObjectSelectAll SELECT] (Delete false).
  conversion_step [ObjectSelectAll SELECT; Delete false] (ImportGltf glb).
  conversion_step [ObjectSelectAll SELECT; Delete false; ImportGltf glb]
    (ObjectSelectAll SELECT).
  conversion_step [ObjectSelectAll SELECT; Delete false; ImportGltf glb; ObjectSelectAll SELECT]
    (ExportObj obj obj_options).
  lazymatch goal with
  | Hh : history ?wc = _, Hs : stdout ?wc = _ |- context [bind (print _) _ ?wc] =>
      eexists _, _, _, _; split; [reflexivity|];
      split; [exact Hh|]; split; [exact (f_equal (fun l => (l ++ [_])%list) Hs)|]
  end.
  apply attempt_converted.
Qed.

(** Lines 56-61: the loop never raises; it makes one attempt for each
    matching name, in the order of the listing, and none for the others. *)
Lemma loop_attempts input_folder output_folder names : forall w,
  exists w' atts,
    for_each names
      (fun filename =>
         if is_glb filename then convert_entry input_folder output_folder filename
         else ret tt) w = (inr tt, w')
    /\ attempts input_folder output_folder names atts
    /\ history w' = (history w ++ concat atts.*1.*1)%list
    /\ stdout w' = (stdout w ++ atts.*1.*2)%list.
Proof.
  induction names as [|f names IH]; intros w.
  - exists w, []. split; [done|]. split; [by apply Forall2_nil|].
    split; symmetry; apply app_nil_r.
  - cbn [for_each]. unfold attempts. rewrite filter_cons.
    destruct (is_glb f) eqn:Hf.
    + destruct (convert_glb_to_obj_attempt (glb_path_of input_folder f)
                  (obj_path_of output_folder f) w) as (b & w1 & evs & line & E & Hh & Hs & Ha).
      unfold convert_entry. rewrite bind_bind.
      rewrite (bind_runs _ _ _ _ _ E), bind_ret.
      destruct (IH w1) as (w' & atts & E' & Ha' & Hh' & Hs').
      exists w', ((evs, line, b) :: atts). split; [exact E'|].
      rewrite decide_True by done. split; [by constructor|].
      cbn. rewrite Hh', Hs', Hh, Hs, <- !(assoc_L (++)). done.
    + rewrite bind_ret. rewrite decide_False by done. apply IH.
Qed.

(** *** What a conversion that returns [True] has done *)

Lemma select_all_leaves_none_unselected (m : gmap string object) :
  filter (fun ko => select ko.2 = false) (set_select true <$> m) = ∅.
Proof.
  apply map_empty. intros k. apply map_lookup_filter_None. right.
  intros o. rewrite lookup_fmap. destruct (m !! k); simpl; [|done]. by intros [= <-].
Qed.

Lemma select_all_selects_all (m : gmap string object) :
  selected (set_select true <$> m) = set_select true <$> m.
Proof.
  unfold selected. apply map_filter_id. intros k o. rewrite lookup_fmap.
  destruct (m !! k); simpl; [|done]. by intros [= <-].
Qed.

(** Imported into an empty scene, the objects keep the names they have in
    the file. *)
Lemma import_into_empty_dom (objs : gmap string object) :
  dom (map_fold add_copy (deselect_all ∅, ∅) objs).1 = dom objs.
Proof.
  apply (map_fold_weak_ind (fun r m => dom r.1 = dom m)).
  - unfold deselect_all. by rewrite fmap_empty, !dom_empty_L.
  - intros k o m r Hk Hr. unfold add_copy. cbn [fst].
    unfold unique_name. rewrite bool_decide_eq_false_2.
    + by rewrite !dom_insert_L, Hr.
    + rewrite Hr. by apply not_elem_of_dom.
Qed.

Lemma walk_after_write (f : gmap (list string) fsnode) k x cs : forall cur,
  walk f cur cs = Some k -> node_at f k <> Some Dir ->
  walk (<[k:=File x]> f) cur cs = Some k.
Proof.
  induction cs as [|c cs IH]; intros cur; simpl; [done|].
  destruct (node_at f cur) as [[|s]|] eqn:Hcur; try discriminate.
  intros Hw Hk. assert (cur <> k) as Hne by (intros ->; congruence).
  replace (node_at (<[k:=File x]> f) cur) with (Some Dir).
  - by apply IH.
  - destruct cur as [|c' cur]; [done|]. simpl in *. by rewrite lookup_insert_ne.
Qed.

(** A file that was written is there afterwards, with what was written. *)
Lemma stat_after_write p x w w' :
  write_file p x w = inr w' -> stat w' p = Some (File x).
Proof.
  unfold write_file, stat, locate.
  destruct (truthy p); [|discriminate].
  destruct (walk (fs w) (start w p) (posixpath.components p)) as [k|] eqn:Hw; [|discriminate].
  assert (node_at (fs w) k <> Some Dir -> w' = set_fs (<[k:=File x]> (fs w)) w ->
          match walk (fs w') (start w' p) (posixpath.components p) with
          | Some k => node_at (fs w') k
          | None => None
          end = Some (File x)) as Hgoal.
  { intros Hk ->. change (fs (set_fs ?f w)) with f.
    change (start (set_fs ?f w) p) with (start w p).
    rewrite (walk_after_write _ _ _ _ _ Hw Hk).
    destruct k; [done|]. simpl. by rewrite lookup_insert_eq. }
  destruct (node_at (fs w) k) as [[|s]|] eqn:Hk; [discriminate|..];
    intros [= <-]; by apply Hgoal.
Qed.

Lemma write_file_objects p x w w' : write_file p x w = inr w' -> objects w' = objects w.
Proof. unfold write_file. intros E. repeat case_match; simplify_eq; done. Qed.

Lemma object_mode_inr op f w w' : object_mode op f w = inr w' -> w' = f w.
Proof. unfold object_mode. destruct (mode_is OBJECT w); [|discriminate]. by intros [= <-]. Qed.

(** Lines 14-36 when nothing raises: the scene is emptied, the objects of
    the GLB file are the scene, all of them selected, and the OBJ file holds
    exactly them. *)
Lemma conversion_result glb obj w w' :
  convert_glb_to_obj glb obj w = (inr true, w') ->
  exists objs,
    stat w glb = Some (File (Some objs))
    /\ dom (objects w') = dom objs
    /\ (forall k o, objects w' !! k = Some o -> select o = true)
    /\ stat w' obj = Some (File (Some (objects w'))).
Proof.
  unfold convert_glb_to_obj. rewrite try_except_returns.
  destruct (conversion glb obj w) as [[e|b] w1] eqn:E; [discriminate|].
  intros [= -> ->]. unfold conversion in E.
  apply bind_inr in E as ([] & v1 & E1 & E).
  apply host_inr in E1 as (_ & u1 & E1 & ->). apply object_mode_inr in E1 as ->.
  apply bind_inr in E as ([] & v2 & E2 & E).
  apply host_inr in E2 as (_ & u2 & E2 & ->). apply object_mode_inr in E2 as ->.
  apply bind_inr in E as ([] & v3 & E3 & E).
  apply host_inr in E3 as (_ & u3 & E3 & ->).
  apply bind_inr in E as ([] & v4 & E4 & E).
  apply host_inr in E4 as (_ & u4 & E4 & ->). apply object_mode_inr in E4 as ->.
  apply bind_inr in E as ([] & v5 & E5 & E).
  apply host_inr in E5 as (_ & u5 & E5 & ->).
  injection E as <-.
  cbn [effect] in E3.
  match type of E3 with
  | match stat ?wx glb with _ => _ end = _ => change (stat wx glb) with (stat w glb) in E3
  end.
  destruct (stat w glb) as [[|[objs|]]|] eqn:Hglb; try discriminate.
  injection E3 as <-. exists objs. split; [done|].
  cbn [effect] in E5.
  pose proof (stat_after_write _ _ _ _ E5) as Hobj.
  pose proof (write_file_objects _ _ _ _ E5) as Hobjs.
  unfold exported in Hobj. cbn [option_is find_named obj_options String.eqb Ascii.eqb Bool.eqb] in Hobj.
  cbn [objects log set_history set_objects] in Hobj, Hobjs.
  unfold import_scene, delete_selected in Hobj, Hobjs.
  cbn [objects log set_history set_objects set_active is_select] in Hobj, Hobjs.
  rewrite select_all_leaves_none_unselected in Hobj, Hobjs.
  rewrite select_all_selects_all in Hobj.
  change (objects (set_stdout ?s (log ?ev u5))) with (objects u5).
  change (stat (set_stdout ?s (log ?ev u5)) obj) with (stat u5 obj).
  rewrite Hobj, Hobjs. split; [|split; [|done]].
  - by rewrite dom_fmap_L, import_into_empty_dom.
  - intros k o. rewrite lookup_fmap. destruct (_ !! k); simpl; [|done]. by intros [= <-].
Qed.

(** Lines 53-54 and 56: the directory step and the listing, then the loop. *)
Lemma batch_is_the_loop input_folder output_folder w w1 names :
  when (negb (path_exists w output_folder)) (host (Makedirs output_folder)) w = (inr tt, w1) ->
  listdir w1 input_folder = inr names ->
  batch_convert_glb_to_obj input_folder output_folder w
  = for_each names
      (fun filename =>
         if is_glb filename then convert_entry input_folder output_folder filename
         else ret tt) w1.
Proof.
  intros Hmk Hls. unfold batch_convert_glb_to_obj. rewrite bind_gets.
  rewrite (bind_runs _ _ _ _ _ Hmk). unfold os_listdir, lift, bind. by rewrite Hls.
Qed.


Lemma attempt_failure_log glb obj evs line b :
  attempt glb obj evs line b -> is_failure_log line = negb b.
Proof. by intros []. Qed.


End Batch.



(** The batch on the sample folder: both GLB files are converted and the
    text file is left alone; with an importer that rejects every file both
    are still attempted, each with its failure log. *)
Lemma batch_examples :
  let good := batch_convert_glb_to_obj (blender:=Sample.quiet) "/glb" "/obj"
                Sample.empty_scene in
  let bad := batch_convert_glb_to_obj (blender:=Sample.no_gltf) "/glb" "/obj"
               Sample.empty_scene in
  good.1 = inr tt
  /\ stdout good.2
     = ["Successfully converted '/glb/a.glb' to '/obj/a.obj'";
        "Successfully converted '/glb/B.GLB' to '/obj/B.obj'"]
  /\ path_exists good.2 "/obj/a.obj" = true
  /\ path_exists good.2 "/obj/B.obj" = true
  /\ path_exists good.2 "/obj/notes.obj" = false
  /\ bad.1 = inr tt
  /\ stdout bad.2
     = ["Error converting '/glb/a.glb': Error: bad glTF";
        "Error converting '/glb/B.GLB': Error: bad glTF"].
Proof. repeat split; vm_compute; reflexivity. Qed.

(** ** Cages (lines 160-199) *)

Section Names.

Lemma find_free_fresh used base fuel : forall n c,
  find_free used base n fuel = Some c -> c ∉ used.
Proof.
  induction fuel as [|fuel IH]; intros n c; simpl; [done|].
  case_bool_decide as Hc; [apply IH|]. by intros [= <-].
Qed.

(** The name the host settles on is free. *)
Lemma unique_name_fresh used name : unique_name used name ∉ used.
Proof.
  unfold unique_name. case_bool_decide as Hn; [|done].
  destruct (find_free used (stem name) 1 999) as [c|] eqn:E.
  - by eapply find_free_fresh.
  - apply is_fresh.
Qed.

(** A free name is kept. *)
Lemma unique_name_free used name : name ∉ used -> unique_name used name = name.
Proof. intros Hn. unfold unique_name. by rewrite bool_decide_eq_false_2. Qed.

Lemma kept_refl rig o : kept rig o o.
Proof. by repeat split. Qed.

Lemma kept_trans rig o1 o2 o3 : kept rig o1 o2 -> kept rig o2 o3 -> kept rig o1 o3.
Proof.
  intros (Hd & Hv & Hp & Hm) (Hd' & Hv' & Hp' & Hm'). repeat split.
  - by rewrite Hd'.
  - by rewrite Hv'.
  - auto.
  - auto.
Qed.

Lemma kept_set_select rig b o : kept rig o (set_select b o).
Proof. by repeat split. Qed.

Lemma deformed_by_retarget rig old new o :
  rig <> old -> deformed_by rig o = true -> deformed_by rig (retarget old new o) = true.
Proof.
  intros Hne. unfold deformed_by, retarget. cbn [modifiers set_modifiers].
  induction (modifiers o) as [|[n m] l IH]; [done|]. cbn [map existsb snd fst].
  rewrite !orb_true_iff. intros [Hm|Hl]; [|right; by apply IH].
  left. destruct m as [r|t|k]; try done.
  destruct (String.eqb_spec t old) as [->|Hto]; [|done].
  apply String.eqb_eq in Hm. congruence.
Qed.

Lemma kept_retarget rig old new o : rig <> old -> kept rig o (retarget old new o).
Proof.
  intros Hne. repeat split.
  - unfold retarget. by destruct (parent o) as [p|]; [destruct (String.eqb p old)|].
  - unfold retarget. by destruct (parent o) as [p|]; [destruct (String.eqb p old)|].
  - intros Hp. unfold retarget. rewrite Hp.
    destruct (String.eqb_spec rig old); [done|]. done.
  - by apply deformed_by_retarget.
Qed.

Lemma rigged_kept rig head o o' : kept rig o o' -> rigged rig head o -> rigged rig head o'.
Proof.
  intros (Hd & Hv & Hp & Hm) (Hpar & Hdef & me & g & Hme & Hg & Hfull).
  split; [auto|]. split; [auto|]. exists me, g. by rewrite Hd, Hv.
Qed.

Lemma scaled_copy_kept rig factor s s' c c' :
  kept rig s s' -> kept rig c c' -> scaled_copy factor s c -> scaled_copy factor s' c'.
Proof.
  intros (Hd & _) (Hd' & _) (me & mc & Hme & Hmc & H). exists me, mc.
  by rewrite Hd, Hd'.
Qed.

(** [vg.add(range(n), w, 'REPLACE')] gives every index below [n] the weight
    [w], clamped to the unit interval. *)
Lemma add_weights_replace n w g i :
  (i < n)%nat -> add_weights n w "REPLACE" g !! i = Some (clamp01 w).
Proof.
  intros Hi. unfold add_weights.
  assert (i ∈ seq 0 n) as Hin by (apply elem_of_seq; lia).
  induction (seq 0 n) as [|j l IH]; [by apply elem_of_nil in Hin|].
  cbn [foldr]. destruct (decide (j = i)) as [->|Hne].
  - by rewrite lookup_insert_eq.
  - rewrite lookup_insert_ne by done. apply IH.
    apply elem_of_cons in Hin as [->|Hin]; done.
Qed.

(** After [select_all(action='DESELECT')] and [k.select_set(True)], [k] is
    the selection. *)
Lemma selected_single (m : gmap string object) k o :
  m !! k = Some o ->
  selected (alter (set_select true) k (set_select false <$> m))
  = {[k := set_select true (set_select false o)]}.
Proof.
  intros Hk. apply map_eq. intros i. unfold selected.
  destruct (decide (i = k)) as [->|Hne].
  - rewrite lookup_singleton_eq. apply map_lookup_filter_Some. split; [|done].
    by rewrite lookup_alter_eq, lookup_fmap, Hk.
  - rewrite lookup_singleton_ne by done. apply map_lookup_filter_None. right.
    intros x. rewrite lookup_alter_ne, lookup_fmap by done.
    destruct (m !! i); simpl; [|done]. by intros [= <-].
Qed.

End Names.

(** ** Steps that leave every object in place *)

Section Related.
Context (P : object -> object -> Prop).
Hypothesis P_refl : forall o, P o o.
Hypothesis P_trans : forall o1 o2 o3, P o1 o2 -> P o2 o3 -> P o1 o3.

Lemma related_refl m : related P m m.
Proof. split; [done|]. intros k x Hx. eauto. Qed.

Lemma related_trans m1 m2 m3 : related P m1 m2 -> related P m2 m3 -> related P m1 m3.
Proof.
  intros [Hd H] [Hd' H']. split; [congruence|].
  intros k x Hx. destruct (H k x Hx) as (x' & Hx' & Hp).
  destruct (H' k x' Hx') as (x'' & Hx'' & Hp'). eauto.
Qed.

Lemma related_fmap (f : object -> object) m :
  (forall o, P o (f o)) -> related P m (f <$> m).
Proof.
  intros Hf. split; [apply dom_fmap_L|].
  intros k x Hx. exists (f x). by rewrite lookup_fmap, Hx.
Qed.

Lemma related_alter (f : object -> object) i m :
  (forall o, P o (f o)) -> related P m (alter f i m).
Proof.
  intros Hf. split; [apply dom_alter_L|].
  intros k x Hx. destruct (decide (k = i)) as [->|Hne].
  - exists (f x). by rewrite lookup_alter_eq, Hx.
  - exists x. by rewrite lookup_alter_ne.
Qed.

Lemma related_imap (g : string -> object -> object) m :
  (forall k o, P o (g k o)) -> related P m (map_imap (fun k o => Some (g k o)) m).
Proof.
  intros Hg. split.
  - apply dom_imap_L. intros k. rewrite elem_of_dom. split.
    + intros [x Hx]. exists x. split; [done|]. by eexists.
    + intros (x & Hx & _). by eexists.
  - intros k x Hx. exists (g k x). by rewrite map_lookup_imap, Hx.
Qed.

End Related.

Section OnReturn.
Context {blender : Host}.

Lemma on_return_ret {A} I (a : A) : on_return I (ret a).
Proof. by intros w b w' Hw [= _ <-]. Qed.

Lemma on_return_raise {A} I e : on_return I (raise (A:=A) e).
Proof. by intros w b w' Hw. Qed.

Lemma on_return_gets {A} I (f : world -> A) : on_return I (gets f).
Proof. by intros w b w' Hw [= _ <-]. Qed.

Lemma on_return_lift {A} I (f : world -> exn + A) : on_return I (lift f).
Proof. intros w b w' Hw. unfold lift. destruct (f w); [done|]. by intros [= _ <-]. Qed.

Lemma on_return_bind {A B} I (m : M A) (k : A -> M B) :
  on_return I m -> (forall a, on_return I (k a)) -> on_return I (bind m k).
Proof.
  intros Hm Hk w b w'' Hw E. apply bind_inr in E as (a & w' & E1 & E2).
  eapply Hk; [|exact E2]. by eapply Hm.
Qed.

Lemma on_return_when I b (m : M unit) : on_return I m -> on_return I (when b m).
Proof. destruct b; [done|]. intros _. apply on_return_ret. Qed.

(** A sequence that returned went through its first part, which kept [I]. *)
Lemma bind_on_return {A B} I (m : M A) (k : A -> M B) w b w'' :
  on_return I m -> I w -> bind m k w = (inr b, w'') ->
  exists a w', I w' /\ k a w' = (inr b, w'').
Proof.
  intros Hm Hw E. apply bind_inr in E as (a & w' & E1 & E2).
  exists a, w'. split; [by eapply Hm|done].
Qed.

Section Calls.
Context (P : object -> object -> Prop).
Hypothesis P_refl : forall o, P o o.
Hypothesis P_trans : forall o1 o2 o3, P o1 o2 -> P o2 o3 -> P o1 o3.
Context (good : call -> bool).
Hypothesis effect_good :
  forall c w w', good c = true -> effect c w = inr w' -> related P (objects w) (objects w').
Context (m0 : gmap string object).

Lemma on_return_host c :
  good c = true -> on_return (fun w => related P m0 (objects w)) (host c).
Proof.
  intros Hc w [] w' Hw E. apply host_inr in E as (_ & w1 & E & ->).
  eapply related_trans; [exact P_trans|exact Hw|]. exact (effect_good c w w1 Hc E).
Qed.

Lemma on_return_print s : on_return (fun w => related P m0 (objects w)) (print s).
Proof. by intros w [] w' Hw [= <-]. Qed.

End Calls.

(** *** What the calls in place keep *)

Lemma same_kind_refl o : same_kind o o.
Proof. done. Qed.

Lemma same_kind_trans o1 o2 o3 : same_kind o1 o2 -> same_kind o2 o3 -> same_kind o1 o3.
Proof. intros [? ?] [? ?]. split; congruence. Qed.

Lemma same_kind_on_mesh f o : same_kind o (on_mesh f o).
Proof.
  unfold same_kind, on_mesh, is_mesh, is_armature.
  destruct (data o) eqn:E; cbn [data set_data]; by rewrite ?E.
Qed.

Lemma same_kind_data o o' : data o' = data o -> same_kind o o'.
Proof. intros E. unfold same_kind, is_mesh, is_armature. by rewrite E. Qed.

Lemma same_kind_adopt ty a pa o : same_kind o (adopt ty a pa o).
Proof. apply same_kind_data. unfold adopt. by repeat case_match. Qed.

Lemma same_kind_apply_modifier n m o : same_kind o (apply_modifier n m o).
Proof.
  unfold apply_modifier.
  eapply same_kind_trans; [eapply same_kind_on_mesh|]. by apply same_kind_data.
Qed.

Lemma same_kind_bake o : same_kind o (bake_scale o).
Proof.
  unfold bake_scale.
  eapply same_kind_trans; [eapply same_kind_on_mesh|]. by apply same_kind_data.
Qed.

Lemma effect_in_place c w w' :
  in_place c = true -> effect c w = inr w' -> related same_kind (objects w) (objects w').
Proof.
  pose proof same_kind_refl as R. pose proof same_kind_trans as T.
  pose proof (related_refl same_kind R) as RR.
  destruct c; simpl; try discriminate; intros _ E;
    unfold object_mode, edit_mesh, makedirs, write_file, active_object in E;
    repeat case_match; simplify_eq;
    cbn [objects set_active set_mode set_objects set_materials set_images set_fs
         update_object];
    try apply RR;
    first
      [ apply related_alter; intros ?;
        first [ apply same_kind_on_mesh | apply same_kind_apply_modifier
              | by apply same_kind_data ]
      | apply related_fmap; intros ?; unfold baked;
        first [ by apply same_kind_data
              | case_match; [apply same_kind_bake|apply R]
              | case_match; [by apply same_kind_data|apply R] ]
      | apply related_imap; intros ? ?; case_match; [apply same_kind_adopt|apply R] ].
Qed.

(** *** What the calls of the export step keep *)

Lemma effect_export_call rig c w w' :
  export_call c = true -> effect c w = inr w' -> related (kept rig) (objects w) (objects w').
Proof.
  pose proof (related_refl (kept rig) (kept_refl rig)) as RR.
  destruct c; simpl; try discriminate; intros _ E;
    unfold object_mode, makedirs, write_file in E;
    repeat case_match; simplify_eq;
    cbn [objects set_objects set_fs update_object];
    try apply RR.
  - match goal with |- related _ _ (?f <$> _) => apply (related_fmap _ f) end.
    intros ?. apply kept_set_select.
  - match goal with |- related _ _ (alter ?f _ _) => apply (related_alter _ (kept_refl rig) f) end.
    intros ?. apply kept_set_select.
Qed.

End OnReturn.

Section Cage.
Context {blender : Host}.

(** The fields of a scene that was built by the setters. *)
Ltac fields_goal :=
  cbn [objects active mode materials images filepath cwd fs stdout history
       log set_objects set_active set_mode set_materials set_images set_fs
       set_stdout set_history update_object].

Ltac fields H :=
  cbn [objects active mode materials images filepath cwd fs stdout history
       log set_objects set_active set_mode set_materials set_images set_fs
       set_stdout set_history update_object] in H.

(** One host call of a sequence that ended well: it was not refused and had
    an effect [E]. *)
Ltac host_ok H E :=
  let u := fresh "u" in
  first
    [ apply bind_inr in H as ([] & ? & E & H); apply host_inr in E as (_ & u & E & ->)
    | apply host_inr in H as (_ & u & E & ->) ].

(** The same for a call that always has an effect. *)
Ltac host_eq H :=
  let E := fresh "E" in
  host_ok H E; cbn [effect] in E; injection E as <-.

Lemma edit_mesh_inr op f w w' :
  edit_mesh op f w = inr w' ->
  exists a o, active w = Some a /\ objects w !! a = Some o /\ is_mesh o = true
              /\ w' = update_object a (on_mesh f) w.
Proof.
  unfold edit_mesh, active_object. destruct (active w) as [a|]; [|discriminate].
  destruct (objects w !! a) as [o|] eqn:Ho; [|discriminate].
  destruct (mode_is EDIT w && is_mesh o) eqn:Hc; [|discriminate].
  intros [= <-]. apply andb_prop in Hc as [_ Hm]. by exists a, o.
Qed.

Lemma mode_set_inr m w w' : effect (ModeSet m) w = inr w' -> w' = set_mode m w.
Proof.
  cbn [effect]. destruct (active_object w) as [[a o]|]; [|discriminate].
  by destruct m, (data o); intros [= <-].
Qed.

(** [duplicate] with [k] as the only selected object. *)
Lemma duplicate_single (m : gmap string object) k o w :
  objects w = alter (set_select true) k (set_select false <$> m) ->
  m !! k = Some o ->
  active w = Some k ->
  objects (duplicate w)
  = <[unique_name (dom m) k
      := copy_of (mesh_names (deselect_all (objects w))) (set_select true (set_select false o))]>
      (deselect_all (objects w))
  /\ active (duplicate w) = Some (unique_name (dom m) k).
Proof.
  intros Hobjs Hk Hact. unfold duplicate. rewrite Hact.
  cbn [objects active set_active set_objects].
  assert (dom (deselect_all (objects w)) = dom m) as Hdom.
  { unfold deselect_all. by rewrite Hobjs, dom_fmap_L, dom_alter_L, dom_fmap_L. }
  remember (deselect_all (objects w)) as D eqn:HD.
  rewrite Hobjs, (selected_single _ _ _ Hk), map_fold_singleton.
  unfold add_copy. cbn [fst snd]. rewrite Hdom.
  split; [reflexivity|]. by rewrite lookup_insert_eq.
Qed.

Lemma dom_imap_total (g : string -> object -> object) (m : gmap string object) :
  dom (map_imap (fun k o => Some (g k o)) m) = dom m.
Proof.
  apply dom_imap_L. intros k. rewrite elem_of_dom. split.
  - intros [x Hx]. exists x. split; [done|]. by eexists.
  - intros (x & Hx & _). by eexists.
Qed.

Lemma lift_inr {A} (f : world -> exn + A) w a w' :
  lift f w = (inr a, w') -> f w = inr a /\ w' = w.
Proof. unfold lift. destruct (f w); [discriminate|]. by intros [= -> ->]. Qed.

(** Simplifying a lookup in a map built by the host calls. *)
Ltac look :=
  repeat first
    [ rewrite lookup_fmap
    | rewrite lookup_alter_eq
    | rewrite lookup_alter_ne by done
    | rewrite map_lookup_imap
    | rewrite lookup_insert_eq
    | rewrite lookup_insert_ne by done ].

Ltac look_in H :=
  repeat first
    [ rewrite lookup_fmap in H
    | rewrite lookup_alter_eq in H
    | rewrite lookup_alter_ne in H by done
    | rewrite map_lookup_imap in H
    | rewrite lookup_insert_eq in H
    | rewrite lookup_insert_ne in H by done ].

(** Computing with objects whose fields are known. *)
Ltac objs :=
  cbn [data scale select parent parent_type modifiers vertex_groups
       mesh_name nverts verts_selected edits mesh_materials
       set_data set_scale set_select set_parent set_parent_type set_modifiers
       set_vertex_groups set_mesh_name set_nverts set_verts_selected set_edits
       set_mesh_materials add_edit on_mesh copy_of is_mesh is_armature
       fmap option_fmap option_map mbind option_bind andb negb].

Ltac objs_in H :=
  cbn [data scale select parent parent_type modifiers vertex_groups
       mesh_name nverts verts_selected edits mesh_materials
       set_data set_scale set_select set_parent set_parent_type set_modifiers
       set_vertex_groups set_mesh_name set_nverts set_verts_selected set_edits
       set_mesh_materials add_edit on_mesh copy_of is_mesh is_armature
       fmap option_fmap option_map mbind option_bind andb negb] in H.

(** The inserted object, computed to a record. *)
Ltac cage_in H :=
  lazymatch type of H with
  | _ = <[_ := ?c]> _ =>
      let c' := eval cbv beta iota zeta delta
                  [data scale select parent parent_type modifiers vertex_groups
                   mesh_name nverts verts_selected edits mesh_materials
                   set_data set_scale set_select set_parent set_parent_type set_modifiers
                   set_vertex_groups set_mesh_name set_nverts set_verts_selected set_edits
                   set_mesh_materials add_edit on_mesh copy_of is_select negb] in c in
      change c with c' in H
  end.

(** The objects of a scene are kept in the form [<[name := c]> others]:
    updates move inside the insertion. *)
Ltac norm_in H :=
  repeat first
    [ rewrite alter_insert_eq in H
    | rewrite alter_insert_ne in H by done
    | rewrite fmap_insert in H
    | erewrite map_imap_insert_Some in H by reflexivity ].

(** What is known of the scene after a step becomes what is known of a new
    scene [W]; the steps before it are forgotten. *)
Ltac snap H :=
  lazymatch type of H with
  | _ ?W = _ =>
      lazymatch goal with
      | HO : objects ?W0 = _, HA : active ?W0 = _, HM : mode ?W0 = _ |- _ =>
          let HO' := fresh "HO" in
          let HA' := fresh "HA" in
          let HM' := fresh "HM" in
          eassert (objects W = _) as HO' by (fields_goal; rewrite ?HO; reflexivity);
          eassert (active W = _) as HA' by (fields_goal; rewrite ?HA; reflexivity);
          eassert (mode W = _) as HM' by (fields_goal; rewrite ?HM; reflexivity);
          clear HO HA HM; revert H HO' HA' HM'; generalize W; clear W0;
          let W' := fresh "W" in
          intros W' H HO HA HM; norm_in HO
      end
  end.

Lemma gets_inr {A} (f : world -> A) w a w' :
  gets f w = (inr a, w') -> a = f w /\ w' = w.
Proof. by intros [= <- <-]. Qed.

Lemma ret_inr {A} (a b : A) w w' : ret a w = (inr b, w') -> b = a /\ w' = w.
Proof. by intros [= <- <-]. Qed.

Lemma data_retarget old new o : data (retarget old new o) = data o.
Proof. unfold retarget. by destruct (parent o) as [p|]; [destruct (String.eqb p old)|]. Qed.

(** One cage.  From a scene where [obj] is a mesh with every vertex selected
    and a group named [head], [rig] is an armature and no object is called
    [name], a call of [create_cage] that returns has added exactly one
    object, called [name]: a copy of [obj] resized as a whole by [factor],
    bound to [rig] with full weight on [head].  Of every other object only
    the selection may have changed. *)
Lemma create_cage_spec obj rig head name factor w w' o me r :
  create_cage obj rig head name factor w = (inr tt, w') ->
  objects w !! obj = Some o -> data o = MeshData me -> verts_selected me = true ->
  is_Some (vertex_groups o !! head) ->
  objects w !! rig = Some r -> is_armature r = true ->
  objects w !! name = None ->
  exists c,
    objects w' !! name = Some c
    /\ scaled_copy factor o c
    /\ rigged rig head c
    /\ dom (objects w') = {[name]} ∪ dom (objects w)
    /\ (forall k x, k <> name -> objects w !! k = Some x ->
                    exists x', objects w' !! k = Some x' /\ kept rig x x').
Proof.
  intros H Ho Hme Hsel Hg Hr Hra Hn. unfold create_cage in H.
  assert (name <> obj) as Hno by congruence.
  assert (name <> rig) as Hnr by congruence.
  assert (obj <> rig) as Hor.
  { intros ->. rewrite Ho in Hr. injection Hr as ->. unfold is_armature in Hra.
    by rewrite Hme in Hra. }
  destruct o as [d sc sel par pt mods vgs]. cbn in Hme, Hg. subst d.
  destruct me as [mn nv vsel ed mm]. cbn in Hsel. subst vsel.
  host_ok H E1. apply mode_set_inr in E1 as ->.
  host_ok H E2. apply object_mode_inr in E2 as ->.
  host_eq H. host_eq H.
  host_ok H E5. apply object_mode_inr in E5 as ->.
  match type of H with
  | context [duplicate ?W] =>
      destruct (duplicate_single (objects w) obj _ W eq_refl Ho eq_refl) as [HO HA];
      assert (mode (duplicate W) = OBJECT) as HM by reflexivity;
      fields HO; revert H HO HA HM; generalize (duplicate W); intros W5 H HO HA HM
  end.
  pose proof (unique_name_fresh (dom (objects w)) obj) as Htmp.
  revert H HO HA Htmp. generalize (unique_name (dom (objects w)) obj). intros tmp H HO HA Htmp.
  apply not_elem_of_dom in Htmp.
  assert (rig <> tmp) as Hrt by congruence.
  assert (obj <> tmp) as Hot by congruence.
  revert HO. generalize (mesh_names
     (deselect_all (alter (set_select true) obj (set_select false <$> objects w)))).
  intros meshes HO. objs_in HO.
  (* cage = bpy.context.active_object *)
  apply bind_inr in H as (cage & ? & E & H). apply lift_inr in E as [E ->].
  unfold active_object in E. fields E. rewrite HA, HO in E. look_in E.
  injection E as <-.
  (* cage.name = cage_name *)
  assert (delete tmp (objects W5)
          = deselect_all (alter (set_select true) obj (set_select false <$> objects w)))
    as Hrest.
  { rewrite HO. apply delete_insert_id. unfold deselect_all. look. by rewrite Htmp. }
  assert (unique_name (dom (delete tmp (objects W5))) name = name) as Hfree.
  { rewrite Hrest. unfold deselect_all. rewrite !dom_fmap_L, dom_alter_L, dom_fmap_L.
    apply unique_name_free. by apply not_elem_of_dom. }
  unfold set_name in H. rewrite bind_bind in H.
  apply bind_inr in H as (cage & ? & E & H). apply gets_inr in E as [E ->].
  fields E. rewrite Hfree in E. subst cage.
  rewrite bind_bind in H. host_eq H. rewrite bind_ret in H.
  match type of H with
  | _ ?W = _ =>
      assert (objects W
              = <[name := copy_of meshes (set_select true (set_select false
                            (Object (MeshData (Mesh mn nv true ed mm)) sc sel par pt mods vgs)))]>
                  (retarget tmp name
                   <$> deselect_all (alter (set_select true) obj
                                       (set_select false <$> objects w)))) as HO';
      [|assert (active W = Some name) as HA';
        [|assert (mode W = OBJECT) as HM' by (fields_goal; exact HM)]]
  end.
  { fields_goal. unfold rename. rewrite !Hfree, Hrest, HO. look. reflexivity. }
  { fields_goal. by rewrite HA, String.eqb_refl, Hfree. }
  clear HO HA HM Hrest Hfree. revert H HO' HA' HM'.
  match goal with |- _ ?W = _ -> _ => generalize W end.
  clear W5. intros W H HO HA HM. unfold deselect_all in HO.
  (* cage.data.name = cage_name *)
  host_eq H.
  match type of H with
  | context [set_mesh_name ?n] => revert H; generalize n; intros nm H
  end.
  snap H.
  (* Scale the Cage Mesh. *)
  host_eq H. snap H.
  host_ok H E. apply mode_set_inr in E as ->. snap H.
  host_ok H E. cbn [effect] in E. rewrite HM in E.
  apply edit_mesh_inr in E as (? & ? & Ea & _ & _ & ->).
  rewrite HA in Ea. injection Ea as <-. snap H.
  host_ok H E. apply mode_set_inr in E as ->. snap H.
  (* Weight paint the Cage Mesh *)
  host_eq H. snap H.
  host_eq H. snap H.
  host_ok H E. apply object_mode_inr in E as ->. snap H.
  host_eq H. snap H.
  host_eq H. snap H.
  host_eq H. snap H.
  host_ok H E. cbn [effect] in E. unfold active_object in E.
  rewrite HA, HO in E. look_in E. rewrite Hr in E.
  cbn [fmap option_fmap option_map] in E.
  match type of E with
  | context [adopt "ARMATURE" rig ?p] =>
      assert (is_armature p = true) as Hpa
        by (unfold is_armature; cbn [data set_select]; rewrite data_retarget; exact Hra);
      revert E Hpa; generalize p; intros pa E Hpa
  end.
  injection E as <-. snap H.
  rewrite (proj2 (String.eqb_neq name rig) Hnr) in HO.
  unfold adopt, deformed_by in HO.
  change (String.eqb "ARMATURE" "ARMATURE") with true in HO.
  rewrite Hpa in HO. objs_in HO.
  match type of HO with
  | context [existsb ?f mods] => destruct (existsb f mods) eqn:Hdef
  end.
  all: cbn [negb] in HO; cage_in HO.
  all: host_eq H; snap H.
  all: destruct Hg as [g Hg].
  all: unfold vertex_groups_get in H; apply bind_inr in H as (vg & ? & E & H);
    apply gets_inr in E as [E ->].
  all: rewrite HO in E; look_in E; objs_in E; rewrite Hg in E; subst vg.
  all: rewrite bind_ret in H.
  all: host_ok H E; apply mode_set_inr in E as ->; snap H.
  all: host_ok H E; cbn [effect] in E;
    apply edit_mesh_inr in E as (? & ? & Ea & _ & _ & ->);
    rewrite HA in Ea; injection Ea as <-; snap H.
  all: host_ok H E; apply mode_set_inr in E as ->; snap H.
  all: cage_in HO.
  all: unfold len_vertices in H; apply bind_inr in H as (n & ? & E & H);
    apply gets_inr in E as [E ->].
  all: rewrite HO in E; look_in E; objs_in E; subst n.
  all: host_ok H E; cbn [effect] in E; unfold mode_is in E; rewrite HM in E;
    injection E as <-; snap H.
  all: host_ok H E; apply mode_set_inr in E as ->; snap H.
  all: host_ok H E; apply object_mode_inr in E as ->.
  all: match goal with
       | |- _ => 
           eassert (objects (log (Done (ObjectSelectAll DESELECT))
                      (set_objects (set_select (is_select DESELECT) <$> objects W) W)) = _)
             as HF by (fields_goal; rewrite HO; reflexivity)
       end.
  all: norm_in HF; cage_in HF.
  all: eexists; split; [rewrite HF; apply lookup_insert_eq|].
  all: split; [by eexists _, _|].
  all: split; [split; [reflexivity|split]|].
  all: try lazymatch goal with
           | |- deformed_by _ _ = true =>
               unfold deformed_by; cbn [modifiers];
               first [ exact Hdef
                     | rewrite existsb_app; cbn; by rewrite String.eqb_refl, orb_true_r ]
           | |- full_weight _ _ =>
               eexists _, _; split; [reflexivity|]; cbn [vertex_groups nverts];
               rewrite lookup_alter_eq, Hg; split; [reflexivity|];
               intros i Hi; by rewrite add_weights_replace
           end.
  all: split;
    [rewrite HF, dom_insert_L, dom_fmap_L, dom_imap_total, dom_alter_L, !dom_fmap_L,
       dom_alter_L, dom_fmap_L; reflexivity|].
  all: intros k x Hk Hx; rewrite HF, lookup_insert_ne, lookup_fmap, map_lookup_imap by done.
  all: lazymatch goal with
       | Hk : ?k <> _, Hx : objects _ !! ?k = Some ?x |- _ =>
           destruct (decide (k = rig)) as [Ekr|Hkr];
           [rewrite <- ?Ekr; rewrite lookup_alter_eq|rewrite lookup_alter_ne by done];
           rewrite !lookup_fmap;
           (destruct (decide (k = obj)) as [Eko|Hko];
            [rewrite <- ?Eko; rewrite lookup_alter_eq|rewrite lookup_alter_ne by done]);
           rewrite lookup_fmap, Hx;
           cbn [fmap option_fmap option_map mbind option_bind select set_select andb];
           rewrite ?String.eqb_refl; cbn [negb andb];
           (eexists; split; [reflexivity|]);
           repeat first
             [ apply kept_refl
             | eapply kept_trans; [|apply kept_set_select]
             | eapply kept_trans; [|apply kept_retarget; congruence] ]
       end.
Qed.

(** Lines 136-157.  From a scene where [obj] is a mesh and [rig] an
    armature, the rigging step, when it goes through, leaves [obj] bound to
    [rig] with every vertex selected and at full weight on [head]; no object
    is added or removed and [rig] is still an armature. *)
Lemma rigging_steps {B} obj rig head (k : unit -> M B) w b w' o r :
  (host (SetParent obj rig);;
   host (SetParentType obj "OBJECT");;
   host (ObjectSelectAll DESELECT);;
   host (SelectSet rig true);;
   host (SelectSet obj true);;
   host (SetActive rig);;
   host (ParentSet "ARMATURE" false);;
   host (ObjectSelectAll DESELECT);;
   host (SetActive obj);;
   host (ModeSet WEIGHT_PAINT);;
   vg ← vertex_groups_get obj head;
   vg ← match vg with
        | Some g => ret g
        | None => vertex_groups_new obj head
        end;
   host (ModeSet EDIT);;
   host (MeshSelectAll SELECT);;
   host (ModeSet OBJECT);;
   n ← len_vertices obj;
   host (VertexGroupAdd obj vg n 1 "REPLACE");;
   bind (host (ModeSet WEIGHT_PAINT)) k) w = (inr b, w') ->
  objects w !! obj = Some o -> is_mesh o = true ->
  objects w !! rig = Some r -> is_armature r = true ->
  exists w1 o1 me r1,
    k tt w1 = (inr b, w')
    /\ objects w1 !! obj = Some o1 /\ data o1 = MeshData me /\ verts_selected me = true
    /\ rigged rig head o1
    /\ objects w1 !! rig = Some r1 /\ is_armature r1 = true
    /\ dom (objects w1) = dom (objects w).
Proof.
  intros H Ho Hmesh Hr Hra.
  assert (obj <> rig) as Hor.
  { intros ->. rewrite Ho in Hr. injection Hr as ->. unfold is_mesh, is_armature in *.
    by destruct (data r). }
  assert (rig <> obj) as Hro by congruence.
  destruct o as [d sc sel par pt mods vgs]. unfold is_mesh in Hmesh. cbn in Hmesh.
  destruct d as [[mn nv vsel ed mm]| |]; try discriminate. clear Hmesh.
  set (m0 := objects w) in *.
  assert (objects w = <[obj := Object (MeshData (Mesh mn nv vsel ed mm)) sc sel par pt mods vgs]> m0)
    as HO by (symmetry; by apply insert_id).
  assert (obj ∈ dom m0) as Hdom by (by apply elem_of_dom_2 in Ho).
  clearbody m0.
  remember (active w) as a0 eqn:HA. symmetry in HA.
  remember (mode w) as md0 eqn:HM. symmetry in HM.
  host_eq H. snap H.
  host_eq H. snap H.
  host_ok H E. apply object_mode_inr in E as ->. snap H.
  host_eq H. snap H.
  host_eq H. snap H.
  host_eq H. snap H.
  host_ok H E. cbn [effect] in E. unfold active_object in E.
  rewrite HA, HO in E. look_in E. rewrite Hr in E.
  cbn [fmap option_fmap option_map] in E.
  match type of E with
  | context [adopt "ARMATURE" rig ?p] =>
      assert (is_armature p = true) as Hpa by exact Hra;
      revert E Hpa; generalize p; intros pa E Hpa
  end.
  injection E as <-. snap H.
  rewrite (proj2 (String.eqb_neq obj rig) Hor) in HO.
  unfold adopt, deformed_by in HO.
  change (String.eqb "ARMATURE" "ARMATURE") with true in HO.
  rewrite Hpa in HO. objs_in HO.
  match type of HO with
  | context [existsb ?f mods] => destruct (existsb f mods) eqn:Hdef
  end.
  all: cbn [negb] in HO; cage_in HO.
  all: host_ok H E; apply object_mode_inr in E as ->; snap H.
  all: host_eq H; snap H.
  all: host_ok H E; apply mode_set_inr in E as ->; snap H.
  all: cage_in HO.
  all: unfold vertex_groups_get in H; apply bind_inr in H as (vg & ? & E & H);
    apply gets_inr in E as [E ->].
  all: rewrite HO in E; look_in E; objs_in E.
  all: destruct (vgs !! head) as [g|] eqn:Hg; subst vg.
  all: lazymatch goal with
       | Hg : _ !! _ = None |- _ =>
           apply not_elem_of_dom in Hg; apply (unique_name_free _ head) in Hg;
           unfold vertex_groups_new in H; rewrite bind_bind in H;
           apply bind_inr in H as (vg & ? & E & H); apply gets_inr in E as [E ->];
           rewrite HO in E; look_in E; objs_in E; rewrite Hg in E; subst vg;
           rewrite bind_bind in H; host_eq H; rewrite bind_ret in H; snap H;
           cage_in HO; rewrite Hg in HO; clear Hg;
           lazymatch type of HO with
           | context [@insert string (gmap nat Q) _ _ ?h ?e ?v] =>
               assert (<[h := e]> v !! h = Some e) as Hg by apply lookup_insert_eq;
               revert HO Hg; generalize (<[h := e]> v); intros vgs' HO Hg
           end
       | |- _ => rewrite bind_ret in H
       end.
  all: host_ok H E; apply mode_set_inr in E as ->; snap H.
  all: host_ok H E; cbn [effect] in E;
    apply edit_mesh_inr in E as (? & ? & Ea & _ & _ & ->);
    rewrite HA in Ea; injection Ea as <-; snap H.
  all: host_ok H E; apply mode_set_inr in E as ->; snap H.
  all: cage_in HO.
  all: unfold len_vertices in H; apply bind_inr in H as (n & ? & E & H);
    apply gets_inr in E as [E ->].
  all: rewrite HO in E; look_in E; objs_in E; subst n.
  all: host_ok H E; cbn [effect] in E; unfold mode_is in E; rewrite HM in E;
    injection E as <-; snap H.
  all: host_ok H E; apply mode_set_inr in E as ->.
  all: match goal with
       | |- _ =>
           eassert (objects (log (Done (ModeSet WEIGHT_PAINT)) (set_mode WEIGHT_PAINT W)) = _)
             as HF by (fields_goal; rewrite HO; reflexivity)
       end.
  all: cage_in HF.
  all: eexists _, _, _, _; split; [exact H|].
  all: split; [rewrite HF; apply lookup_insert_eq|].
  all: split; [reflexivity|].
  all: split; [reflexivity|].
  all: split; [split; [reflexivity|split]|].
  all: try lazymatch goal with
           | |- deformed_by _ _ = true =>
               unfold deformed_by; cbn [modifiers];
               first [ exact Hdef
                     | rewrite existsb_app; cbn; by rewrite String.eqb_refl, orb_true_r ]
           | |- full_weight _ _ =>
               eexists _, _; split; [reflexivity|]; cbn [vertex_groups nverts];
               rewrite lookup_alter_eq, Hg; split; [reflexivity|];
               intros i Hi; by rewrite add_weights_replace
           end.
  all: split;
    [rewrite HF; look; rewrite Hr;
     cbn [fmap option_fmap option_map mbind option_bind];
     rewrite String.eqb_refl, andb_false_r; reflexivity|].
  all: split; [exact Hra|].
  all: rewrite HF, dom_insert_L, dom_fmap_L, dom_imap_total, dom_alter_L, dom_fmap_L.
  all: by apply subseteq_union_1_L, singleton_subseteq_l.
Qed.

End Cage.

(** ** The two cages of a run that ends well (lines 160-199) *)

Section TwoCages.
Context {blender : Host}.

Lemma host_in_place m0 c :
  in_place c = true -> on_return (fun w => related same_kind m0 (objects w)) (host c).
Proof. apply on_return_host; [apply same_kind_trans|apply effect_in_place]. Qed.

Lemma host_export_call rig m0 c :
  export_call c = true -> on_return (fun w => related (kept rig) m0 (objects w)) (host c).
Proof. apply on_return_host; [apply kept_trans|apply effect_export_call]. Qed.

Ltac returns host_lemma :=
  unfold modifiers_new, materials_new, nodes_getitem, nodes_new, images_load,
    len_materials, export_target, objects_getitem;
  repeat first
    [ apply on_return_ret
    | apply on_return_raise
    | apply on_return_gets
    | apply on_return_lift
    | apply on_return_print
    | apply host_lemma; reflexivity
    | apply on_return_when
    | apply on_return_bind; [|intros ?]
    | match goal with
      | |- on_return _ (match ?x with _ => _ end) => destruct x
      end ].

(** Lines 207-232: the export step changes the selection and the files,
    nothing else of the objects. *)
Lemma export_keeps_objects rig (export_path obj inner outer : string) w :
  on_return (fun w1 => related (kept rig) (objects w) (objects w1))
    (there ← gets (fun w => path_exists w (posixpath.dirname export_path));
     when (negb there) (host (Makedirs (posixpath.dirname export_path)));;
     host (ObjectSelectAll DESELECT);;
     host (SelectSet obj true);;
     host (SelectSet rig true);;
     inner ← objects_getitem inner;
     host (SelectSet inner true);;
     outer ← objects_getitem outer;
     host (SelectSet outer true);;
     host (ExportFbx export_path fbx_options);;
     print ("Successfully exported to: " +:+ export_path);;
     ret true).
Proof. returns (host_export_call rig (objects w)). Qed.

(** A mesh before the rigging step is a mesh the validation found. *)
Lemma found_mesh o : missing_mesh o = false -> exists x, o = Some x /\ is_mesh x = true.
Proof. destruct o as [x|]; [|done]. cbn. intros E. exists x. by destruct (is_mesh x). Qed.

Lemma found_armature o :
  missing_armature o = false -> exists x, o = Some x /\ is_armature x = true.
Proof. destruct o as [x|]; [|done]. cbn. intros E. exists x. by destruct (is_armature x). Qed.

Lemma kept_armature rig o o' : kept rig o o' -> is_armature o = true -> is_armature o' = true.
Proof. intros (Hd & _). unfold is_armature. by rewrite Hd. Qed.

(** What a run of the body that returns has made, when the two names were
    free. *)
Lemma pipeline_cages
    (object_name accessory_type attachment_name rig_name head_bone_name : string)
    (apply_scale : bool) (decimate_ratio : option pyfloat)
    (export_path uv_unwrap_method : string) (texture_path : option string)
    (material_name : string) (w : world) (b : bool) (w' : world) :
  objects w !! "InnerCage" = None ->
  objects w !! "OuterCage" = None ->
  pipeline object_name accessory_type attachment_name rig_name head_bone_name
    apply_scale decimate_ratio export_path uv_unwrap_method texture_path material_name w
  = (inr b, w') ->
  dom (objects w') = {["InnerCage"; "OuterCage"]} ∪ dom (objects w)
  /\ exists src inner outer,
       objects w' !! object_name = Some src
       /\ objects w' !! "InnerCage" = Some inner
       /\ objects w' !! "OuterCage" = Some outer
       /\ rigged rig_name head_bone_name src
       /\ scaled_copy 0.98 src inner /\ rigged rig_name head_bone_name inner
       /\ scaled_copy 1.02 src outer /\ rigged rig_name head_bone_name outer.
Proof.
  intros Hin Hout H. unfold pipeline in H.
  (* 1. validation *)
  rewrite bind_gets, bind_when_raise in H.
  destruct (missing_mesh (objects w !! object_name)) eqn:Hm; [discriminate|].
  rewrite bind_gets, bind_when_raise in H.
  destruct (missing_armature (objects w !! rig_name)) eqn:Ha; [discriminate|].
  rewrite bind_when_raise in H.
  destruct (negb (bool_decide (head_bone_name ∈ bones_of (objects w !! rig_name))));
    [discriminate|].
  apply found_mesh in Hm as (o0 & Ho0 & Hm0).
  apply found_armature in Ha as (r0 & Hr0 & Ha0).
  (* 2-5. the steps that leave every object in its place *)
  assert (related same_kind (objects w) (objects w)) as J
    by (apply related_refl, same_kind_refl).
  repeat lazymatch type of H with
         | bind (host (SetParent _ _)) _ _ = _ => fail
         | bind ?m ?k _ = _ =>
             let J' := fresh "J" in
             apply (bind_on_return (fun w1 => related same_kind (objects w) (objects w1)) m k)
               in H as (? & ? & J' & H);
             [ clear J; rename J' into J; lazy beta zeta in H
             | returns (host_in_place (objects w))
             | exact J ]
         end.
  destruct J as [Hd1 J].
  destruct (J _ _ Ho0) as (o1 & Ho1 & Hk1 & _). rewrite Hm0 in Hk1.
  destruct (J _ _ Hr0) as (r1 & Hr1 & _ & Hk2). rewrite Ha0 in Hk2.
  (* 6. rigging *)
  eapply rigging_steps in H
    as (w2 & o2 & me & r2 & H & Ho2 & Hme & Hsel & Hrig & Hr2 & Hra2 & Hd2);
    [|exact Ho1|exact Hk1|exact Hr1|exact Hk2].
  cbv beta in H.
  assert (is_Some (vertex_groups o2 !! head_bone_name)) as Hg2.
  { destruct Hrig as (_ & _ & ? & g & _ & Hg & _). by exists g. }
  assert (objects w2 !! "InnerCage" = None) as Hin2.
  { apply not_elem_of_dom. rewrite Hd2, Hd1. by apply not_elem_of_dom. }
  assert (objects w2 !! "OuterCage" = None) as Hout2.
  { apply not_elem_of_dom. rewrite Hd2, Hd1. by apply not_elem_of_dom. }
  (* 7. the inner cage *)
  apply bind_inr in H as ([] & w3 & E1 & H).
  destruct (create_cage_spec _ _ _ _ _ _ _ _ _ _ E1 Ho2 Hme Hsel Hg2 Hr2 Hra2 Hin2)
    as (c1 & Hc1 & Hsc1 & Hrg1 & Hd3 & K1).
  destruct (K1 object_name o2) as (o3 & Ho3 & Hk3); [congruence|exact Ho2|].
  destruct (K1 rig_name r2) as (r3 & Hr3 & Hkr3); [congruence|exact Hr2|].
  assert (objects w3 !! "OuterCage" = None) as Hout3.
  { apply not_elem_of_dom. rewrite Hd3. apply not_elem_of_union. split.
    - by apply not_elem_of_singleton.
    - by apply not_elem_of_dom. }
  (* the outer cage *)
  apply bind_inr in H as ([] & w4 & E2 & H).
  destruct Hk3 as (Hd & Hv & Hk3).
  assert (kept rig_name o2 o3) as Hk3' by done.
  rewrite <- Hd in Hme. rewrite <- Hv in Hg2.
  destruct (create_cage_spec _ _ _ _ _ _ _ _ _ _ E2 Ho3 Hme Hsel Hg2 Hr3
              (kept_armature _ _ _ Hkr3 Hra2) Hout3)
    as (c2 & Hc2 & Hsc2 & Hrg2 & Hd4 & K2).
  destruct (K2 object_name o3) as (o4 & Ho4 & Hk4); [congruence|exact Ho3|].
  destruct (K2 "InnerCage" c1) as (c1' & Hc1' & Hkc1); [done|exact Hc1|].
  (* 8. the export *)
  apply bind_inr in H as (p & w5 & E3 & H).
  rewrite export_target_cases in E3. injection E3 as <- <-.
  match type of H with
  | _ = (_, _) =>
      pose proof (export_keeps_objects rig_name _ object_name "InnerCage" "OuterCage" w4
                    _ _ _ (related_refl _ (kept_refl rig_name) _) H) as [Hd5 K3]
  end.
  destruct (K3 _ _ Ho4) as (o5 & Ho5 & Hk5).
  destruct (K3 _ _ Hc1') as (c1'' & Hc1'' & Hkc1').
  destruct (K3 _ _ Hc2) as (c2' & Hc2' & Hkc2).
  pose proof (kept_trans _ _ _ _ Hk4 Hk5) as Hk35.
  pose proof (kept_trans _ _ _ _ Hk3' Hk35) as Hk25.
  pose proof (kept_trans _ _ _ _ Hkc1 Hkc1') as Hkc.
  split.
  { rewrite Hd5, Hd4, Hd3, Hd2, Hd1.
    by rewrite (assoc_L (∪)), (comm_L (∪) {["OuterCage"]}). }
  exists o5, c1'', c2'.
  split; [exact Ho5|]. split; [exact Hc1''|]. split; [exact Hc2'|].
  split; [exact (rigged_kept _ _ _ _ Hk25 Hrig)|].
  split; [exact (scaled_copy_kept _ _ _ _ _ _ Hk25 Hkc Hsc1)|].
  split; [exact (rigged_kept _ _ _ _ Hkc Hrg1)|].
  split; [exact (scaled_copy_kept _ _ _ _ _ _ Hk35 Hkc2 Hsc2)|].
  exact (rigged_kept _ _ _ _ Hkc2 Hrg2).
Qed.


End TwoCages.


